(** * github_trending_feishu_card.py: a shallow embedding and its properties

    The script fetches the GitHub Trending page, extracts one record per
    repository block, optionally writes the records to a Feishu Bitable
    and posts an interactive card to a Feishu webhook.

    Conventions of the embedding.
    - A Python [str] is a [string]; a character is a code point below 256.
      The few glyphs of the card that lie outside that range are written as
      their UTF-8 bytes; only concatenation is ever applied to them.
    - A Python [int] is a [Z]; [None] is [None] of an [option].
    - The markup is taken after BeautifulSoup has parsed it: the extraction
      works on the tree ([node]), as the source does.
    - Network, clock, environment and output are explicit: a run is a
      function of its [world] and produces an [outcome] and a log of
      [event]s. *)

From Stdlib Require Import String Ascii List ZArith Bool Lia Arith.
From Stdlib Require Import DecimalString.
Import ListNotations.

Set Warnings "-register-all".

Open Scope string_scope.
Open Scope Z_scope.

(** ** Python strings *)

Module PyStr.

Definition code (c : ascii) : Z := Z.of_nat (nat_of_ascii c).

Definition in_range (lo hi : Z) (c : ascii) : bool :=
  (lo <=? code c) && (code c <=? hi).

(** [str.isspace] on one character, for code points below 256. *)
Definition isspace (c : ascii) : bool :=
  in_range 9 13 c || in_range 28 32 c || (code c =? 133) || (code c =? 160).

Fixpoint rev_onto (s acc : string) : string :=
  match s with
  | EmptyString => acc
  | String c s' => rev_onto s' (String c acc)
  end.

Definition rev (s : string) : string := rev_onto s "".

(** [s.lstrip()], [s.rstrip()], [s.strip()] *)
Fixpoint lstrip (s : string) : string :=
  match s with
  | EmptyString => ""
  | String c s' => if isspace c then lstrip s' else s
  end.

Definition rstrip (s : string) : string := rev (lstrip (rev s)).

Definition strip (s : string) : string := rstrip (lstrip s).

(** [s.lstrip(c)] for a one-character argument. *)
Fixpoint lstrip_char (c : ascii) (s : string) : string :=
  match s with
  | EmptyString => ""
  | String d s' => if Ascii.eqb d c then lstrip_char c s' else s
  end.

(** [s.replace(c, "")] for a one-character [c]. *)
Fixpoint remove_char (c : ascii) (s : string) : string :=
  match s with
  | EmptyString => ""
  | String d s' =>
      if Ascii.eqb d c then remove_char c s' else String d (remove_char c s')
  end.

(** [s.split(sep)] for a one-character separator: the result is never
    empty, and empty pieces are kept. *)
Fixpoint split (sep : ascii) (s : string) : list string :=
  match s with
  | EmptyString => [""]
  | String c s' =>
      if Ascii.eqb c sep then "" :: split sep s'
      else match split sep s' with
           | [] => [String c ""]
           | p :: ps => String c p :: ps
           end
  end.

(** [s.split(sep, 1)] when [sep] occurs in [s]: the text before its first
    occurrence and the text after it; [None] when [sep in s] is false. *)
Fixpoint split_once (sep : ascii) (s : string) : option (string * string) :=
  match s with
  | EmptyString => None
  | String c s' =>
      if Ascii.eqb c sep then Some ("", s')
      else match split_once sep s' with
           | Some (a, b) => Some (String c a, b)
           | None => None
           end
  end.

(** [c in s] for a one-character [c]. *)
Fixpoint mentions (c : ascii) (s : string) : bool :=
  match s with
  | EmptyString => false
  | String d s' => Ascii.eqb d c || mentions c s'
  end.

(** [s.endswith(suffix)] *)
Definition endswith (s suffix : string) : bool :=
  prefix (rev suffix) (rev s).

(** [sep.join(parts)] *)
Fixpoint join (sep : string) (parts : list string) : string :=
  match parts with
  | [] => ""
  | [p] => p
  | p :: ps => p ++ sep ++ join sep ps
  end.

(** The maximal runs of non-space characters ([re.findall(r"\S+", s)],
    which is how BeautifulSoup cuts a [class] attribute into its values).
    [cur] is the run being read, reversed. *)
Fixpoint words_from (cur : string) (s : string) : list string :=
  match s with
  | EmptyString => match cur with EmptyString => [] | _ => [rev cur] end
  | String c s' =>
      if isspace c
      then match cur with
           | EmptyString => words_from "" s'
           | _ => rev cur :: words_from "" s'
           end
      else words_from (String c cur) s'
  end.

Definition words (s : string) : list string := words_from "" s.

(** [s.lower()] on one character, for code points below 256. *)
Definition lower_char (c : ascii) : ascii :=
  if in_range 65 90 c
     || (in_range 192 222 c && negb (code c =? 215))
  then ascii_of_nat (nat_of_ascii c + 32)
  else c.

Fixpoint lower (s : string) : string :=
  match s with
  | EmptyString => ""
  | String c s' => String (lower_char c) (lower s')
  end.

(** [str(n)] for an [int]. *)
Definition of_int (n : Z) : string := NilZero.string_of_int (Z.to_int n).

(** Truth value of a string: empty is false. *)
Definition truthy (s : string) : bool :=
  match s with EmptyString => false | _ => true end.

(** *** [int(s)]

    The text is first brought to ASCII: a character from 127 up becomes a
    blank when it is a space and "?" otherwise (below 256 there is no
    decimal digit other than "0".."9").  Then: blanks, an optional sign,
    digits with single underscores between them, blanks, end of text.
    [None] stands for [ValueError]. *)

Definition to_ascii_form (c : ascii) : ascii :=
  if 127 <=? code c then (if isspace c then " " else "?") else c.

Fixpoint ascii_form (s : string) : string :=
  match s with
  | EmptyString => ""
  | String c s' => String (to_ascii_form c) (ascii_form s')
  end.

(** The C notion of a blank that the integer reader skips. *)
Definition c_isspace (c : ascii) : bool :=
  in_range 9 13 c || (code c =? 32).

Fixpoint skip_blanks (s : string) : string :=
  match s with
  | EmptyString => ""
  | String c s' => if c_isspace c then skip_blanks s' else s
  end.

Definition digit_value (c : ascii) : option Z :=
  if in_range 48 57 c then Some (code c - 48) else None.

Definition is_underscore (c : ascii) : bool := Ascii.eqb c "_".

(** Reads digits and underscores; [prev_us] tells that the previous
    character was an underscore.  Returns the value and the unread rest. *)
Fixpoint scan_digits (acc : Z) (prev_us : bool) (s : string)
  : option (Z * string) :=
  match s with
  | EmptyString => if prev_us then None else Some (acc, "")
  | String c s' =>
      if is_underscore c
      then if prev_us then None else scan_digits acc true s'
      else match digit_value c with
           | Some d => scan_digits (10 * acc + d) false s'
           | None => if prev_us then None else Some (acc, s)
           end
  end.

Definition read_magnitude (s : string) : option (Z * string) :=
  match s with
  | EmptyString => None
  | String c _ =>
      match digit_value c with
      | Some _ => scan_digits 0 false s
      | None => None
      end
  end.

(** An optional sign in front. *)
Definition read_sign (s : string) : Z * string :=
  match s with
  | String "+" r => (1, r)
  | String "-" r => (-1, r)
  | _ => (1, s)
  end.

Definition int_of_ascii_form (s : string) : option Z :=
  let '(sign, s2) := read_sign (skip_blanks s) in
  match read_magnitude s2 with
  | None => None
  | Some (v, rest) =>
      match skip_blanks rest with
      | EmptyString => Some (sign * v)
      | _ => None
      end
  end.

Definition int (s : string) : option Z := int_of_ascii_form (ascii_form s).

End PyStr.

(** ** The parsed markup (BeautifulSoup) *)

Module Soup.

(** A node of the tree: a text string, a string of a kind that [get_text]
    leaves out (comment, doctype, script or style content), or a tag with
    its name, its attributes and its contents.  Attribute values are kept
    as written; a [class] value is cut into its values when matched. *)
Inductive node : Type :=
| Text (s : string)
| OtherString (s : string)
| Tag (name : string) (attrs : list (string * string)) (contents : list node).

(** [tag.descendants]: every node below [n], in document order. *)
Fixpoint descendants (n : node) : list node :=
  match n with
  | Tag _ _ cs =>
      (fix below (l : list node) : list node :=
         match l with
         | [] => []
         | c :: l' => c :: descendants c ++ below l'
         end) cs
  | _ => []
  end.

Fixpoint lookup (k : string) (d : list (string * string)) : option string :=
  match d with
  | [] => None
  | (k', v) :: d' => if String.eqb k' k then Some v else lookup k d'
  end.

(** [tag.get(key)] *)
Definition get (n : node) (key : string) : option string :=
  match n with
  | Tag _ attrs _ => lookup key attrs
  | _ => None
  end.

Definition has_name (name : string) (n : node) : bool :=
  match n with
  | Tag nm _ _ => String.eqb nm name
  | _ => false
  end.

(** An attribute filter of [find] / [find_all]. *)
Definition attr_filter : Type := node -> bool.

Definition no_filter : attr_filter := fun _ => true.

(** [class_=c]: one of the values of the [class] attribute is [c], or the
    values joined by single blanks are [c]. *)
Definition class_ (c : string) : attr_filter := fun n =>
  match get n "class" with
  | None => false
  | Some v =>
      let values := PyStr.words v in
      existsb (String.eqb c) values || String.eqb (PyStr.join " " values) c
  end.

(** [key=value] for a single-valued attribute. *)
Definition attr_is (key value : string) : attr_filter := fun n =>
  match get n key with
  | None => false
  | Some v => String.eqb v value
  end.

(** [key=f] for a function [f], which receives [None] when the attribute
    is missing. *)
Definition attr_satisfies (key : string) (f : option string -> bool)
  : attr_filter := fun n => f (get n key).

(** [tag.find_all(name, ...)] and [tag.find(name, ...)]: the matching
    descendants in document order, and the first of them. *)
Definition find_all (n : node) (name : string) (flt : attr_filter)
  : list node :=
  filter (fun d => has_name name d && flt d) (descendants n).

Definition find (n : node) (name : string) (flt : attr_filter)
  : option node :=
  hd_error (find_all n name flt).

(** [tag.get_text(strip=True)]: the text strings below the tag, each one
    stripped, the empty ones dropped, concatenated. *)
Fixpoint stripped_strings (l : list node) : list string :=
  match l with
  | [] => []
  | Text s :: l' =>
      let t := PyStr.strip s in
      if PyStr.truthy t then t :: stripped_strings l' else stripped_strings l'
  | _ :: l' => stripped_strings l'
  end.

Definition get_text_strip (n : node) : string :=
  PyStr.join "" (stripped_strings (descendants n)).

End Soup.

(** ** GitHub Trending *)

Definition TRENDING_BASE_URL : string := "https://github.com/trending".

(** Truth value of an optional string: [None] and the empty string are
    false. *)
Definition truthy_opt (o : option string) : bool :=
  match o with
  | Some s => PyStr.truthy s
  | None => false
  end.

Definition build_trending_url (language : option string) (since : string)
  : string :=
  let url :=
    match language with
    | Some l => if PyStr.truthy l then TRENDING_BASE_URL ++ "/" ++ l
                else TRENDING_BASE_URL
    | None => TRENDING_BASE_URL
    end in
  url ++ "?since=" ++ since.

(** One element of the list that [fetch_trending] returns. *)
Module Repo.
Record t : Type := mk {
  name : string;
  url : string;
  description : string;
  language : string;
  stars : option Z;
  stars_today : option Z
}.
End Repo.

Definition repo : Type := Repo.t.

Module Trending.
Import Soup.

(** The star link: [href=lambda x: x and x.endswith("/stargazers")]. *)
Definition is_stargazers (x : option string) : bool :=
  match x with
  | Some h => PyStr.truthy h && PyStr.endswith h "/stargazers"
  | None => false
  end.

Definition description_of (item : node) : string :=
  let desc_tag :=
    match find item "p" (class_ "col-9") with
    | Some t => Some t
    | None => find item "p" no_filter
    end in
  match desc_tag with
  | Some t => get_text_strip t
  | None => ""
  end.

Definition language_of (item : node) : string :=
  match find item "span" (attr_is "itemprop" "programmingLanguage") with
  | Some t => get_text_strip t
  | None => ""
  end.

(** [try: stars = int(stars_text) except ValueError: stars = None] *)
Definition stars_of (item : node) : option Z :=
  match find item "a" (attr_satisfies "href" is_stargazers) with
  | Some star_tag =>
      let stars_text := PyStr.remove_char "," (get_text_strip star_tag) in
      PyStr.int stars_text
  | None => None
  end.

Definition stars_today_of (item : node) : option Z :=
  match find item "span" (class_ "d-inline-block float-sm-right") with
  | Some stars_today_tag =>
      let text := get_text_strip stars_today_tag in
      match PyStr.split " " text with
      | [] => None
      | part0 :: _ => PyStr.int (PyStr.remove_char "," part0)
      end
  | None => None
  end.

(** The body of the loop for one [article]: [None] is [continue]. *)
Definition extract_item (item : node) : option repo :=
  match find item "h2" no_filter with
  | None => None
  | Some h2 =>
      match find h2 "a" no_filter with
      | None => None
      | Some a =>
          if negb (truthy_opt (get a "href")) then None
          else
            match get a "href" with
            | None => None
            | Some href =>
                let repo_path := PyStr.strip href in
                Some {| Repo.name := PyStr.lstrip_char "/" repo_path;
                        Repo.url := "https://github.com" ++ repo_path;
                        Repo.description := description_of item;
                        Repo.language := language_of item;
                        Repo.stars := stars_of item;
                        Repo.stars_today := stars_today_of item |}
            end
      end
  end.

(** [for item in repo_items: ... results.append(...)] *)
Fixpoint extract_loop (repo_items : list node) (results : list repo)
  : list repo :=
  match repo_items with
  | [] => results
  | item :: rest =>
      match extract_item item with
      | None => extract_loop rest results
      | Some r => extract_loop rest (results ++ [r])
      end
  end.

(** The part of [fetch_trending] after the page has been parsed. *)
Definition extract (soup : node) : list repo :=
  let repo_items := find_all soup "article" (class_ "Box-row") in
  extract_loop repo_items [].

End Trending.

(** ** Dates ([datetime])

    The proleptic Gregorian calendar as the [datetime] module computes
    it: ordinal 1 is 0001-01-01, a Monday. *)

Module Calendar.

Record date : Type := mk_date { year : Z; month : Z; day : Z }.

Definition MINYEAR : Z := 1.
Definition MAXYEAR : Z := 9999.

Definition is_leap (y : Z) : bool :=
  (y mod 4 =? 0) && (negb (y mod 100 =? 0) || (y mod 400 =? 0)).

(** Number of days before January 1st of year [y]. *)
Definition days_before_year (y : Z) : Z :=
  let p := y - 1 in
  p * 365 + p / 4 - p / 100 + p / 400.

Definition DAYS_IN_MONTH (m : Z) : Z :=
  match m with
  | 1 => 31 | 2 => 28 | 3 => 31 | 4 => 30 | 5 => 31 | 6 => 30
  | 7 => 31 | 8 => 31 | 9 => 30 | 10 => 31 | 11 => 30 | 12 => 31
  | _ => 0
  end.

Definition DAYS_BEFORE_MONTH (m : Z) : Z :=
  match m with
  | 1 => 0 | 2 => 31 | 3 => 59 | 4 => 90 | 5 => 120 | 6 => 151
  | 7 => 181 | 8 => 212 | 9 => 243 | 10 => 273 | 11 => 304 | 12 => 334
  | _ => 0
  end.

Definition days_in_month (y m : Z) : Z :=
  if (m =? 2) && is_leap y then 29 else DAYS_IN_MONTH m.

Definition days_before_month (y m : Z) : Z :=
  DAYS_BEFORE_MONTH m + (if (2 <? m) && is_leap y then 1 else 0).

Definition ymd2ord (y m d : Z) : Z :=
  days_before_year y + days_before_month y m + d.

Definition toordinal (t : date) : Z := ymd2ord (year t) (month t) (day t).

(** The dates a [datetime] can hold. *)
Definition valid (t : date) : Prop :=
  MINYEAR <= year t <= MAXYEAR /\
  1 <= month t <= 12 /\
  1 <= day t <= days_in_month (year t) (month t).

(** Monday is 0. *)
Definition weekday (t : date) : Z := (toordinal t + 6) mod 7.

(** Ordinal of the Monday that starts ISO week 1 of year [y]. *)
Definition isoweek1monday (y : Z) : Z :=
  let THURSDAY := 3 in
  let firstday := ymd2ord y 1 1 in
  let firstweekday := (firstday + 6) mod 7 in
  let week1monday := firstday - firstweekday in
  if THURSDAY <? firstweekday then week1monday + 7 else week1monday.

(** [t.isocalendar()]: ISO year, ISO week (from 1), ISO weekday (from 1). *)
Definition isocalendar (t : date) : Z * Z * Z :=
  let y := year t in
  let week1monday := isoweek1monday y in
  let today := toordinal t in
  let week := (today - week1monday) / 7 in
  let d := (today - week1monday) mod 7 in
  if week <? 0 then
    let y' := y - 1 in
    let week1monday' := isoweek1monday y' in
    (y', (today - week1monday') / 7 + 1, (today - week1monday') mod 7 + 1)
  else if (52 <=? week) && (isoweek1monday (y + 1) <=? today) then
    (y + 1, 1, d + 1)
  else (y, week + 1, d + 1).

(** A non-negative number printed with at least [width] digits, zeros in
    front ([{n:02d}], and the numeric fields of [strftime]). *)
Definition zero_padded (width : nat) (n : Z) : string :=
  let s := PyStr.of_int n in
  let fix zeros (k : nat) : string :=
    match k with
    | O => ""
    | S k' => String "0" (zeros k')
    end in
  zeros (width - String.length s)%nat ++ s.

(** [t.strftime("%Y-%m")] and [t.strftime("%Y-%m-%d")]: the year in four
    digits, the month and the day in two, as the library documents them. *)
Definition strftime_Y_m (t : date) : string :=
  zero_padded 4 (year t) ++ "-" ++ zero_padded 2 (month t).

Definition strftime_Y_m_d (t : date) : string :=
  strftime_Y_m t ++ "-" ++ zero_padded 2 (day t).

(** Milliseconds from the epoch to 00:00:00 UTC of the day [t]
    (1970-01-01 has ordinal 719163). *)
Definition midnight_ms (t : date) : Z := (toordinal t - 719163) * 86400000.

End Calendar.

Definition str_or (o : option string) (default : string) : string :=
  match o with
  | Some s => if PyStr.truthy s then s else default
  | None => default
  end.

(** [build_source_tag], with the value of [datetime.now(timezone.utc)]
    made a parameter. *)
Definition build_source_tag (now : Calendar.date) (since : string)
  (language : option string) : string :=
  let lang_key := PyStr.lower (str_or language "all") in
  if String.eqb since "weekly" then
    let '(year, week, _) := Calendar.isocalendar now in
    "github-trending:weekly:" ++ PyStr.of_int year ++ "-W"
      ++ Calendar.zero_padded 2 week ++ ":" ++ lang_key
  else if String.eqb since "monthly" then
    let month_tag := Calendar.strftime_Y_m now in
    "github-trending:monthly:" ++ month_tag ++ ":" ++ lang_key
  else
    let day_tag := Calendar.strftime_Y_m_d now in
    "github-trending:daily:" ++ day_tag ++ ":" ++ lang_key.

Definition current_date_ms (now : Calendar.date) : Z :=
  Calendar.midnight_ms now.

(** ** The outside world *)

(** A decoded JSON value.  An object has one member per key.  Numbers
    are integers; a number with a fraction or an exponent is outside the
    embedding. *)
Inductive json : Type :=
| JNull
| JBool (b : bool)
| JInt (n : Z)
| JStr (s : string)
| JArr (items : list json)
| JObj (members : list (string * json)).

(** [v != 0] is false for the integer 0 and for [False] only. *)
Definition differs_from_zero (v : json) : bool :=
  match v with
  | JInt n => negb (n =? 0)
  | JBool b => b
  | _ => true
  end.

Fixpoint members_get (key : string) (members : list (string * json))
  : option json :=
  match members with
  | [] => None
  | (k, v) :: rest => if String.eqb k key then Some v else members_get key rest
  end.

(** A row of the table: the value of ["fields"]. *)
Module Row.
Record link_t : Type := mk_link { link : string; text : string }.
Record t : Type := mk {
  Rank : Z;
  Repo : string;
  Owner : string;
  SpokenLanguage : string;
  Language : string;
  Stars : Z;
  TodayStars : Z;
  Description : string;
  URL : link_t;
  Date : Z;
  Source : string
}.
End Row.

(** [{"fields": fields}] *)
Record bitable_record : Type := mk_record { fields : Row.t }.

(** The card. *)
Inductive element : Type :=
| Markdown (content : string)
| Hr
| Button (text_content : string) (type : string) (url : string).

Record card : Type := mk_card {
  schema : string;
  header_title : string;
  header_template : string;
  body_elements : list element
}.

(** What the script sends. *)
Inductive payload : Type :=
| AppCredentials (app_id app_secret : string)
| Records (records : list bitable_record)
| InteractiveCard (c : card).

(** A header value: a literal text, or [f"Bearer {token}"]. *)
Inductive header_value : Type :=
| Literal (s : string)
| Bearer (token : json).

Definition headers_t : Type := list (string * header_value).

Inductive request : Type :=
| GET (url : string) (headers : headers_t) (timeout : Z)
| POST (url : string) (headers : headers_t) (body : payload) (timeout : Z).

(** A response, seen through the two decoders the script applies to it:
    [BeautifulSoup(resp.text, "html.parser")], which accepts any text, and
    [resp.json()], which raises on a body that is not JSON. *)
Record response : Type := mk_response {
  status_code : Z;
  soup_of_text : Soup.node;
  json_of_text : option json
}.

Inductive exn : Type :=
| RequestException
| HTTPError (status : Z)
| JSONDecodeError
| AttributeError
| KeyError (key : string)
| RuntimeError (msg : string) (data : option json).

(** The world of one run: what the network answers to each request
    ([None]: the transport fails), and what the clock shows at its
    successive readings. *)
Record world : Type := mk_world {
  answer : request -> option response;
  clock : nat -> Calendar.date
}.

(** The environment variables, as read when the module is loaded. *)
Record environ : Type := mk_environ {
  FEISHU_WEBHOOK_URL : option string;
  FEISHU_APP_ID : option string;
  FEISHU_APP_SECRET : option string;
  BITABLE_APP_TOKEN : option string;
  BITABLE_TABLE_ID : option string
}.

(** What the script prints. *)
Inductive message : Type :=
| ErrorNoWebhook
| ErrorFetch (e : exn)
| WarnNoRepos
| InfoBitableSkipped
| InfoWrote (n : nat)
| ErrorBitable (e : exn)
| ErrorWebhookHTTP (e : exn)
| DebugResponse
| ErrorNonZeroCode (data : json)
| ErrorSend (e : exn)
| Done.

Inductive event : Type :=
| Sent (r : request)
| Stdout (m : message)
| Stderr (m : message).

(** ** Computations *)

Inductive outcome (A : Type) : Type :=
| Ret (a : A)
| Raise (e : exn)
| Exit (status : Z).

Arguments Ret {A} a.
Arguments Raise {A} e.
Arguments Exit {A} status.

Record state : Type := mk_state {
  clock_reads : nat;
  log : list event
}.

Definition initial : state := {| clock_reads := 0; log := [] |}.

Definition M (A : Type) : Type := state -> outcome A * state.

Definition ret {A} (a : A) : M A := fun s => (Ret a, s).

Definition bind {A B} (m : M A) (k : A -> M B) : M B := fun s =>
  match m s with
  | (Ret a, s') => k a s'
  | (Raise e, s') => (Raise e, s')
  | (Exit c, s') => (Exit c, s')
  end.

Declare Scope py_scope.
Delimit Scope py_scope with py.
Notation "x <- m ;; k" := (bind m (fun x => k))
  (at level 100, m at next level, right associativity) : py_scope.
Notation "m ;; k" := (bind m (fun _ => k))
  (at level 100, right associativity) : py_scope.
Open Scope py_scope.

Definition raise {A} (e : exn) : M A := fun s => (Raise e, s).

(** [sys.exit(status)]: [SystemExit] is not an [Exception]. *)
Definition sys_exit {A} (status : Z) : M A := fun s => (Exit status, s).

(** [try: body except Exception as e: handler(e)] *)
Definition try_except {A} (body : M A) (handler : exn -> M A) : M A :=
  fun s =>
    match body s with
    | (Raise e, s') => handler e s'
    | r => r
    end.

Definition emit (ev : event) : M unit := fun s =>
  (Ret tt, {| clock_reads := clock_reads s; log := log s ++ [ev] |}).

Definition print (m : message) : M unit := emit (Stdout m).
Definition print_err (m : message) : M unit := emit (Stderr m).

(** Exit status of the process for an outcome of [main]. *)
Definition exit_status {A} (o : outcome A) : Z :=
  match o with
  | Ret _ => 0
  | Raise _ => 1
  | Exit c => c
  end.

(** The status codes that [raise_for_status] turns into an error. *)
Definition is_error_status (status : Z) : bool :=
  (400 <=? status) && (status <? 600).

(** ** The script *)

Module Args.
(** The namespace that [parse_args] returns. *)
Record t : Type := mk {
  language : option string;
  since : string;
  limit : Z;
  webhook : option string
}.
End Args.

(** [l[:limit]]: a negative [limit] counts from the end. *)
Definition slice_to {A} (l : list A) (limit : Z) : list A :=
  if limit <? 0
  then firstn (Z.to_nat (Z.max 0 (Z.of_nat (length l) + limit))) l
  else firstn (Z.to_nat limit) l.

(** [enumerate(l, start)] *)
Fixpoint enumerate {A} (l : list A) (start : Z) : list (Z * A) :=
  match l with
  | [] => []
  | x :: l' => (start, x) :: enumerate l' (start + 1)
  end.

Definition nl : string := String (ascii_of_nat 10) "".
Definition middle_dot : string := String (ascii_of_nat 183) "".
Definition glyph_star : string := "⭐".
Definition glyph_chart : string := "📈".
Definition glyph_magnifier : string := "🔍".

(** One row of [build_bitable_records]. *)
Definition bitable_row (date_ms : Z) (source : string) (idx : Z) (r : repo)
  : bitable_record :=
  let full_name := Repo.name r in
  let owner :=
    match PyStr.split_once "/" full_name with
    | Some (o, _) => o
    | None => full_name
    end in
  let stars_val := match Repo.stars r with Some v => v | None => 0 end in
  let today_val := match Repo.stars_today r with Some v => v | None => 0 end in
  {| fields :=
       {| Row.Rank := idx;
          Row.Repo := full_name;
          Row.Owner := owner;
          Row.SpokenLanguage := "all";
          Row.Language := str_or (Some (Repo.language r)) "";
          Row.Stars := stars_val;
          Row.TodayStars := today_val;
          Row.Description := str_or (Some (Repo.description r)) "";
          Row.URL := {| Row.link := Repo.url r; Row.text := full_name |};
          Row.Date := date_ms;
          Row.Source := source |} |}.

(** [for idx, repo in enumerate(repos[:limit], start=1): ...
    records.append({"fields": fields})] *)
Fixpoint records_loop (date_ms : Z) (source : string) (l : list (Z * repo))
  (records : list bitable_record) : list bitable_record :=
  match l with
  | [] => records
  | (idx, r) :: l' =>
      records_loop date_ms source l'
        (records ++ [bitable_row date_ms source idx r])
  end.

(** [build_bitable_records].  [now_date] and [now_tag] are the two clock
    readings, made by [current_date_ms()] and by [build_source_tag()]. *)
Definition build_bitable_records (now_date now_tag : Calendar.date)
  (repos : list repo) (language : option string) (since : string)
  (limit : Z) : list bitable_record :=
  let date_ms := current_date_ms now_date in
  let source := build_source_tag now_tag since language in
  records_loop date_ms source (enumerate (slice_to repos limit) 1) [].

Section Script.

(** [textwrap.shorten(_, width=120, placeholder=...)], a total function
    of the standard library. *)
Variable shorten : string -> string.

Variable w : world.
Variable env : environ.

Definition utcnow : M Calendar.date := fun s =>
  (Ret (clock w (clock_reads s)),
   {| clock_reads := S (clock_reads s); log := log s |}).

(** [requests.get] / [requests.post] *)
Definition send (r : request) : M response :=
  emit (Sent r);;
  match answer w r with
  | Some resp => ret resp
  | None => raise RequestException
  end.

(** [resp.raise_for_status()] *)
Definition raise_for_status (resp : response) : M unit :=
  if is_error_status (status_code resp)
  then raise (HTTPError (status_code resp))
  else ret tt.

(** [resp.json()] *)
Definition resp_json (resp : response) : M json :=
  match json_of_text resp with
  | Some data => ret data
  | None => raise JSONDecodeError
  end.

(** [data.get(key)]: only a dict has [get]. *)
Definition data_get (data : json) (key : string) : M json :=
  match data with
  | JObj members =>
      ret (match members_get key members with Some v => v | None => JNull end)
  | _ => raise AttributeError
  end.

(** [data[key]] on a dict. *)
Definition data_item (data : json) (key : string) : M json :=
  match data with
  | JObj members =>
      match members_get key members with
      | Some v => ret v
      | None => raise (KeyError key)
      end
  | _ => raise AttributeError
  end.

Definition fetch_trending (language : option string) (since : string)
  : M (list repo) :=
  let url := build_trending_url language since in
  let headers :=
    [("User-Agent",
      Literal "Mozilla/5.0 (compatible; GitHubTrendingBot/1.0)")] in
  resp <- send (GET url headers 10);;
  raise_for_status resp;;
  ret (Trending.extract (soup_of_text resp)).

Definition get_tenant_access_token : M json :=
  if negb (truthy_opt (FEISHU_APP_ID env))
     || negb (truthy_opt (FEISHU_APP_SECRET env))
  then raise (RuntimeError "FEISHU_APP_ID / FEISHU_APP_SECRET not set" None)
  else
    let url :=
      "https://open.feishu.cn/open-apis/auth/v3/tenant_access_token/internal" in
    let body := AppCredentials (str_or (FEISHU_APP_ID env) "")
                               (str_or (FEISHU_APP_SECRET env) "") in
    resp <- send (POST url [] body 10);;
    raise_for_status resp;;
    data <- resp_json resp;;
    code <- data_get data "code";;
    if differs_from_zero code
    then raise (RuntimeError "get_tenant_access_token failed: " (Some data))
    else data_item data "tenant_access_token".

Definition write_records_to_bitable (records : list bitable_record)
  : M unit :=
  match records with
  | [] => ret tt
  | _ =>
      if negb (truthy_opt (BITABLE_APP_TOKEN env)
               && truthy_opt (BITABLE_TABLE_ID env))
      then raise (RuntimeError "BITABLE app_token / table_id not set" None)
      else
        token <- get_tenant_access_token;;
        let url :=
          "https://open.feishu.cn/open-apis/bitable/v1/apps/"
          ++ str_or (BITABLE_APP_TOKEN env) "" ++ "/tables/"
          ++ str_or (BITABLE_TABLE_ID env) "" ++ "/records/batch_create" in
        let headers :=
          [("Authorization", Bearer token);
           ("Content-Type", Literal "application/json; charset=utf-8")] in
        resp <- send (POST url headers (Records records) 15);;
        raise_for_status resp;;
        data <- resp_json resp;;
        code <- data_get data "code";;
        if differs_from_zero code
        then raise (RuntimeError "Bitable batch_create failed: " (Some data))
        else print (InfoWrote (length records))
  end.

(** The text of the star figures of one card entry. *)
Definition stars_str (stars stars_today : option Z) : string :=
  let stars_part :=
    List.app
      (match stars with
       | Some v => [glyph_star ++ " " ++ PyStr.of_int v]
       | None => []
       end)
      (match stars_today with
       | Some v => ["+" ++ PyStr.of_int v ++ " today"]
       | None => []
       end) in
  match stars_part with
  | [] => "stars: N/A"
  | _ => PyStr.join (" " ++ middle_dot ++ " ") stars_part
  end.

(** The markdown block of the repository with number [idx]. *)
Definition card_entry (idx : Z) (r : repo) : element :=
  let lang := str_or (Some (Repo.language r)) "Unknown" in
  let desc := str_or (Some (Repo.description r)) "(no description)" in
  let short_desc := shorten desc in
  Markdown
    (PyStr.of_int idx ++ ". **" ++ Repo.name r ++ "**  " ++ nl
     ++ stars_str (Repo.stars r) (Repo.stars_today r)
     ++ " " ++ middle_dot ++ " " ++ lang ++ "  " ++ nl
     ++ short_desc ++ "  " ++ nl
     ++ Repo.url r).

(** [for idx, repo in enumerate(repos[:limit], start=1): ...
    elements.append(...)] *)
Fixpoint entries_loop (l : list (Z * repo)) (elements : list element)
  : list element :=
  match l with
  | [] => elements
  | (idx, r) :: l' => entries_loop l' (elements ++ [card_entry idx r])
  end.

Definition since_label (since : string) : string :=
  if String.eqb since "daily" then "Daily"
  else if String.eqb since "weekly" then "Weekly"
  else if String.eqb since "monthly" then "Monthly"
  else since.

Definition build_feishu_card (repos : list repo) (language : option string)
  (since : string) (limit : Z) : card :=
  let label := since_label since in
  let lang_label := str_or language "All Languages" in
  let title :=
    glyph_chart ++ " GitHub Trending " ++ middle_dot ++ " " ++ label in
  let elements0 :=
    [ Markdown ("**Language**: " ++ lang_label ++ "  " ++ nl
                ++ "**Period**: " ++ label ++ "  " ++ nl
                ++ "**Source**: https://github.com/trending");
      Hr;
      Markdown ("**Top " ++ PyStr.of_int limit ++ " Repositories**") ] in
  let elements1 :=
    entries_loop (enumerate (slice_to repos limit) 1) elements0 in
  let elements2 := List.app elements1 [Hr] in
  let elements3 :=
    List.app elements2
      [Button (glyph_magnifier ++ " Open GitHub Trending")
         "primary" "https://github.com/trending"] in
  {| schema := "2.0";
     header_title := title;
     header_template := "blue";
     body_elements := elements3 |}.

Definition send_card_to_feishu (webhook_url : string) (c : card) : M unit :=
  resp <- send (POST webhook_url [] (InteractiveCard c) 10);;
  try_except (raise_for_status resp)
    (fun e =>
       print_err (ErrorWebhookHTTP e);;
       print_err DebugResponse;;
       raise e);;
  data <- resp_json resp;;
  code <- data_get data "code";;
  if differs_from_zero code
  then print_err (ErrorNonZeroCode data);;
       raise (RuntimeError "Feishu error: " (Some data))
  else ret tt.

(** [args.webhook or os.getenv("FEISHU_WEBHOOK_URL")] *)
Definition webhook_url_of (args : Args.t) : option string :=
  if truthy_opt (Args.webhook args) then Args.webhook args
  else FEISHU_WEBHOOK_URL env.

Definition bitable_ready : bool :=
  truthy_opt (FEISHU_APP_ID env) && truthy_opt (FEISHU_APP_SECRET env)
  && truthy_opt (BITABLE_APP_TOKEN env) && truthy_opt (BITABLE_TABLE_ID env).

(** The body of the [try] around the table write. *)
Definition table_write (args : Args.t) (repos : list repo) : M unit :=
  now_date <- utcnow;;
  now_tag <- utcnow;;
  let records :=
    build_bitable_records now_date now_tag repos (Args.language args)
      (Args.since args) (Args.limit args) in
  write_records_to_bitable records.

(** The table step of [main]: the [if not bitable_ready ... else try ...]. *)
Definition table_step (args : Args.t) (repos : list repo) : M unit :=
  if negb bitable_ready then print_err InfoBitableSkipped
  else
    try_except (table_write args repos)
      (fun e => print_err (ErrorBitable e)).

(** The card step of [main]. *)
Definition card_step (webhook_url : string) (args : Args.t)
  (repos : list repo) : M unit :=
  let c := build_feishu_card repos (Args.language args) (Args.since args)
             (Args.limit args) in
  try_except (send_card_to_feishu webhook_url c)
    (fun e => print_err (ErrorSend e);; sys_exit 1);;
  print Done.

(** [main], after [parse_args]. *)
Definition main (args : Args.t) : M unit :=
  match webhook_url_of args with
  | None => print_err ErrorNoWebhook;; sys_exit 1
  | Some "" => print_err ErrorNoWebhook;; sys_exit 1
  | Some webhook_url =>
      repos <- try_except
                 (fetch_trending (Args.language args) (Args.since args))
                 (fun e => print_err (ErrorFetch e);; sys_exit 1);;
      match repos with
      | [] => print_err WarnNoRepos;; sys_exit 0
      | _ =>
          table_step args repos;;
          card_step webhook_url args repos
      end
  end.

End Script.

(** * Properties *)

(** ** Vocabulary of the statements *)

Module Page.
Import Soup.

(** No descendant of [n] is a tag [name] that passes [flt]. *)
Definition absent (n : node) (name : string) (flt : attr_filter) : Prop :=
  forall d, In d (descendants n) -> has_name name d && flt d = false.

(** [x] is the first descendant of [n], in document order, that is a tag
    [name] passing [flt]. *)
Definition first_of (n : node) (name : string) (flt : attr_filter)
  (x : node) : Prop :=
  exists before after,
    descendants n = (before ++ x :: after)%list /\
    has_name name x && flt x = true /\
    forall d, In d before -> has_name name d && flt d = false.

(** The title element of a block is its heading and, in it, the link
    with a non-empty target. *)
Definition has_title (item : node) : Prop :=
  exists h2 a href,
    first_of item "h2" no_filter h2 /\
    first_of h2 "a" no_filter a /\
    get a "href" = Some href /\ href <> "".

(** The title element is missing: no heading, or no link in the heading,
    or no target on the link. *)
Definition title_less (item : node) : Prop :=
  absent item "h2" no_filter \/
  exists h2, first_of item "h2" no_filter h2 /\
    (absent h2 "a" no_filter \/
     exists a, first_of h2 "a" no_filter a /\
       (get a "href" = None \/ get a "href" = Some "")).

(** [blocks] consists of [N] blocks with a title and [M] blocks without. *)
Inductive block_counts : list node -> nat -> nat -> Prop :=
| counts_nil : block_counts [] 0 0
| counts_titled : forall b l N M,
    has_title b -> block_counts l N M -> block_counts (b :: l) (S N) M
| counts_title_less : forall b l N M,
    title_less b -> block_counts l N M -> block_counts (b :: l) N (S M).

(** The filters of the optional parts of a block. *)
Definition stargazers_link : attr_filter :=
  attr_satisfies "href" Trending.is_stargazers.
Definition language_span : attr_filter :=
  attr_is "itemprop" "programmingLanguage".
Definition today_span : attr_filter :=
  class_ "d-inline-block float-sm-right".

(** A sample page: two blocks with a title (the second one bare) and one
    block whose heading has no link. *)
Definition block_full : node :=
  Tag "article" [("class", "Box-row")]
    [ Tag "h2" [("class", "h3 lh-condensed")]
        [ Tag "a" [("href", "/rocq-prover/rocq")] [Text " rocq-prover / rocq "] ];
      Tag "p" [("class", "col-9 color-fg-muted my-1 pr-4")]
        [ Text "  A proof assistant  " ];
      Tag "span" [("itemprop", "programmingLanguage")] [ Text "OCaml" ];
      Tag "a" [("href", "/rocq-prover/rocq/stargazers")] [ Text " 5,123 " ];
      Tag "span" [("class", "d-inline-block float-sm-right")]
        [ Text " 12 stars today " ] ].

Definition block_bare : node :=
  Tag "article" [("class", "Box-row")]
    [ Tag "h2" [] [ Tag "a" [("href", "/owner/repo")] [] ] ].

Definition block_untitled : node :=
  Tag "article" [("class", "Box-row")]
    [ Tag "h2" [] [ Text "no link here" ];
      Tag "p" [] [ Text "text" ] ].

(** A block whose star link reads "-5". *)
Definition block_negative : node :=
  Tag "article" [("class", "Box-row")]
    [ Tag "h2" [] [ Tag "a" [("href", "/owner/repo")] [ Text "owner / repo" ] ];
      Tag "a" [("href", "/owner/repo/stargazers")] [ Text "-5" ] ].

Definition negative_page : node := Tag "[document]" [] [ block_negative ].

(** The text before the first blank: [text.split(" ")[0]]. *)
Definition first_piece (text : string) : string :=
  hd "" (PyStr.split " " text).

Definition sample_page : node :=
  Tag "[document]" []
    [ Tag "div" [] [ block_full; block_untitled; block_bare ] ].

End Page.

(** The per-repository entries of a card: its elements without the three
    blocks at the top and the two at the bottom. *)
Definition card_entries (c : card) : list element :=
  let es := body_elements c in
  firstn (length es - 5) (skipn 3 es).

(** The request that [fetch_trending] makes. *)
Definition trending_request (language : option string) (since : string)
  : request :=
  GET (build_trending_url language since)
    [("User-Agent",
      Literal "Mozilla/5.0 (compatible; GitHubTrendingBot/1.0)")] 10.

(** The state [s] with the events [evs] added to its log. *)
Definition logged (s : state) (evs : list event) : state :=
  {| clock_reads := clock_reads s; log := log s ++ evs |}.

(** The request that [get_tenant_access_token] makes. *)
Definition token_request (env : environ) : request :=
  POST "https://open.feishu.cn/open-apis/auth/v3/tenant_access_token/internal"
    [] (AppCredentials (str_or (FEISHU_APP_ID env) "")
                       (str_or (FEISHU_APP_SECRET env) "")) 10.

(** The request that [send_card_to_feishu] makes. *)
Definition webhook_request (webhook_url : string) (c : card) : request :=
  POST webhook_url [] (InteractiveCard c) 10.

(** The value of [data.get("code")] for the members of a JSON object. *)
Definition code_of (members : list (string * json)) : json :=
  match members_get "code" members with
  | Some v => v
  | None => JNull
  end.

(** What [fetch_trending] makes of the answer to its request. *)
Definition fetch_outcome (a : option response) : outcome (list repo) :=
  match a with
  | None => Raise RequestException
  | Some resp =>
      if is_error_status (status_code resp)
      then Raise (HTTPError (status_code resp))
      else Ret (Trending.extract (soup_of_text resp))
  end.

(** What [send_card_to_feishu] makes of the answer to its request. *)
Definition send_outcome (a : option response) : outcome unit :=
  match a with
  | None => Raise RequestException
  | Some resp =>
      if is_error_status (status_code resp)
      then Raise (HTTPError (status_code resp))
      else
        match json_of_text resp with
        | None => Raise JSONDecodeError
        | Some (JObj members) =>
            if differs_from_zero (code_of members)
            then Raise (RuntimeError "Feishu error: "
                          (Some (JObj members)))
            else Ret tt
        | Some _ => Raise AttributeError
        end
  end.

(** What [get_tenant_access_token] makes of the answer to its request,
    when the app id and the app secret are set. *)
Definition token_outcome (a : option response) : outcome json :=
  match a with
  | None => Raise RequestException
  | Some resp =>
      if is_error_status (status_code resp)
      then Raise (HTTPError (status_code resp))
      else
        match json_of_text resp with
        | None => Raise JSONDecodeError
        | Some (JObj members) =>
            if differs_from_zero (code_of members)
            then Raise (RuntimeError "get_tenant_access_token failed: "
                          (Some (JObj members)))
            else
              match members_get "tenant_access_token" members with
              | Some token => Ret token
              | None => Raise (KeyError "tenant_access_token")
              end
        | Some _ => Raise AttributeError
        end
  end.

(** The card that [main] builds. *)
Definition card_of (shorten : string -> string) (args : Args.t)
  (repos : list repo) : card :=
  build_feishu_card shorten repos (Args.language args) (Args.since args)
    (Args.limit args).

(** Exit status of a run of [main]. *)
Definition main_status (shorten : string -> string) (w : world)
  (env : environ) (args : Args.t) : Z :=
  exit_status (fst (main shorten w env args initial)).

(** Result of the fetch of a run, and of the posting of its card. *)
Definition fetched (w : world) (args : Args.t) : outcome (list repo) :=
  fst (fetch_trending w (Args.language args) (Args.since args) initial).

Definition sent (shorten : string -> string) (w : world) (args : Args.t)
  (webhook_url : string) (repos : list repo) : outcome unit :=
  fst (send_card_to_feishu w webhook_url (card_of shorten args repos) initial).

(** No webhook URL: neither the flag nor the variable gives a non-empty
    text. *)
Definition webhook_missing (env : environ) (args : Args.t) : Prop :=
  truthy_opt (webhook_url_of env args) = false.

(** A computation that never leaves through [sys.exit]. *)
Definition never_exits {A} (m : M A) : Prop :=
  forall s c s', m s <> (Exit c, s').

(** The exit status as a function of the answers to the page request and
    to the posting of the card. *)
Definition status_table (shorten : string -> string) (env : environ)
  (args : Args.t) (w : world) : Z :=
  match webhook_url_of env args with
  | None => 1
  | Some "" => 1
  | Some webhook_url =>
      match fetch_outcome
              (answer w (trending_request (Args.language args)
                           (Args.since args))) with
      | Raise _ => 1
      | Exit status => status
      | Ret [] => 0
      | Ret repos =>
          match send_outcome
                  (answer w (webhook_request webhook_url
                               (card_of shorten args repos))) with
          | Ret _ => 0
          | Raise _ => 1
          | Exit status => status
          end
      end
  end.

(** Two worlds that give the same answers to the page request and to the
    posting of a card; they may differ on the token and table requests. *)
Definition same_outside_table (w1 w2 : world) : Prop :=
  (forall url headers timeout,
     answer w1 (GET url headers timeout) = answer w2 (GET url headers timeout))
  /\
  (forall url headers c timeout,
     answer w1 (POST url headers (InteractiveCard c) timeout) =
     answer w2 (POST url headers (InteractiveCard c) timeout)).

(** *** ISO weeks and decimal texts *)

(** Ordinal of the Thursday of the week, Monday to Sunday, that holds [t]. *)
Definition thursday_of_week (t : Calendar.date) : Z :=
  Calendar.toordinal t - Calendar.weekday t + 3.

(** ISO 8601: the week of [t] belongs to the year [y] that holds its
    Thursday, and its number [wk] counts the Thursdays of [y] up to that
    one. *)
Definition iso_year_week (t : Calendar.date) (y wk : Z) : Prop :=
  Calendar.ymd2ord y 1 1 <= thursday_of_week t < Calendar.ymd2ord (y + 1) 1 1
  /\ wk = (thursday_of_week t - Calendar.ymd2ord y 1 1) / 7 + 1.

(** The number that a text of decimal digits denotes. *)
Fixpoint decimal_from (acc : Z) (s : string) : option Z :=
  match s with
  | EmptyString => Some acc
  | String c s' =>
      match PyStr.digit_value c with
      | Some d => decimal_from (10 * acc + d) s'
      | None => None
      end
  end.

(** [s] is [n] written with exactly [width] decimal digits. *)
Definition shows (width : nat) (n : Z) (s : string) : Prop :=
  String.length s = width /\ decimal_from 0 s = Some n.

Definition showsb (width : nat) (n : Z) (s : string) : bool :=
  Nat.eqb (String.length s) width &&
  match decimal_from 0 s with
  | Some m => m =? n
  | None => false
  end.

(** The integers [lo], [lo + 1], ..., [lo + n - 1]. *)
Definition range (lo n : Z) : list Z :=
  map (fun k => lo + Z.of_nat k) (seq 0 (Z.to_nat n)).

Module Samples.

Definition r1 : repo :=
  {| Repo.name := "rocq-prover/rocq";
     Repo.url := "https://github.com/rocq-prover/rocq";
     Repo.description := "A proof assistant";
     Repo.language := "OCaml";
     Repo.stars := Some 5123;
     Repo.stars_today := Some 12 |}.

Definition r2 : repo :=
  {| Repo.name := "owner/repo";
     Repo.url := "https://github.com/owner/repo";
     Repo.description := "";
     Repo.language := "";
     Repo.stars := None;
     Repo.stars_today := None |}.

Definition r3 : repo :=
  {| Repo.name := "solo";
     Repo.url := "https://github.com/solo";
     Repo.description := "third";
     Repo.language := "C";
     Repo.stars := Some 7;
     Repo.stars_today := None |}.

Definition repos : list repo := [r1; r2; r3].

Definition today : Calendar.date := Calendar.mk_date 2026 11 4.

Definition keep : string -> string := fun s => s.

(** A block whose figures do not read as integers. *)
Definition block_unreadable : Soup.node :=
  Soup.Tag "article" [("class", "Box-row")]
    [ Soup.Tag "h2" []
        [ Soup.Tag "a" [("href", "/owner/repo")] [ Soup.Text "owner / repo" ] ];
      Soup.Tag "a" [("href", "/owner/repo/stargazers")] [ Soup.Text "1.2k" ];
      Soup.Tag "span" [("class", "d-inline-block float-sm-right")]
        [ Soup.Text "many stars today" ] ].

Definition page_unreadable : Soup.node :=
  Soup.Tag "[document]" [] [ block_unreadable ].

Definition refusal : exn :=
  RuntimeError "Bitable batch_create failed: "
    (Some (JObj [("code", JInt 1254000)])).

Definition ok_body : json :=
  JObj [("code", JInt 0); ("tenant_access_token", JStr "t-123")].

Definition page_response (page : Soup.node) : response :=
  {| status_code := 200; soup_of_text := page; json_of_text := None |}.

Definition json_response (data : json) : response :=
  {| status_code := 200;
     soup_of_text := Soup.Tag "[document]" [] [];
     json_of_text := Some data |}.

Definition env_full : environ :=
  {| FEISHU_WEBHOOK_URL := Some "https://hook.example/abc";
     FEISHU_APP_ID := Some "cli_a1";
     FEISHU_APP_SECRET := Some "secret";
     BITABLE_APP_TOKEN := Some "app";
     BITABLE_TABLE_ID := Some "tbl" |}.

Definition args_default : Args.t :=
  {| Args.language := None; Args.since := "daily"; Args.limit := 2;
     Args.webhook := None |}.

(** Every request succeeds. *)
Definition world_ok (page : Soup.node) : world :=
  {| answer := fun r =>
       match r with
       | GET _ _ _ => Some (page_response page)
       | POST _ _ _ _ => Some (json_response ok_body)
       end;
     clock := fun _ => today |}.

(** The token endpoint answers with HTTP 200 and a body with code 0 and
    no token. *)
Definition world_no_token : world :=
  {| answer := fun r =>
       match r with
       | GET _ _ _ => Some (page_response Page.sample_page)
       | POST _ _ (AppCredentials _ _) _ =>
           Some (json_response (JObj [("code", JInt 0)]))
       | POST _ _ _ _ => Some (json_response ok_body)
       end;
     clock := fun _ => today |}.

(** The table endpoint refuses the rows; the webhook accepts the card. *)
Definition world_table_refused : world :=
  {| answer := fun r =>
       match r with
       | GET _ _ _ => Some (page_response Page.sample_page)
       | POST _ _ (Records _) _ =>
           Some (json_response (JObj [("code", JInt 1254000)]))
       | POST _ _ _ _ => Some (json_response ok_body)
       end;
     clock := fun _ => today |}.

End Samples.

(** ** Vocabulary of the further properties *)

(** The records of a list of blocks, block by block. *)
Definition records_of (items : list Soup.node) : list repo :=
  flat_map (fun item =>
              match Trending.extract_item item with
              | Some r => [r]
              | None => []
              end) items.

(** First and last character of a text. *)
Definition first_char (s : string) : option ascii :=
  match s with
  | EmptyString => None
  | String c _ => Some c
  end.

Fixpoint last_char (s : string) : option ascii :=
  match s with
  | EmptyString => None
  | String c EmptyString => Some c
  | String _ s' => last_char s'
  end.

(** A text with no blank at either end; the empty text is one. *)
Definition trimmed (s : string) : Prop :=
  (forall c, first_char s = Some c -> PyStr.isspace c = false) /\
  (forall c, last_char s = Some c -> PyStr.isspace c = false).

(** [k] times the character [c]. *)
Fixpoint repeat_char (c : ascii) (k : nat) : string :=
  match k with
  | O => ""
  | S k' => String c (repeat_char c k')
  end.




(** Number of elements of [l[:limit]] for a list of [n] elements. *)
Definition slice_length (n limit : Z) : Z :=
  if limit <? 0 then Z.max 0 (n + limit) else Z.min limit n.

(** One day in milliseconds. *)
Definition DAY_MS : Z := 86400000.

(** A date comes before another one. *)
Definition date_lt (t1 t2 : Calendar.date) : Prop :=
  Calendar.year t1 < Calendar.year t2 \/
  (Calendar.year t1 = Calendar.year t2 /\
   (Calendar.month t1 < Calendar.month t2 \/
    (Calendar.month t1 = Calendar.month t2 /\
     Calendar.day t1 < Calendar.day t2))).

(** Two dates lie in the same week, Monday to Sunday. *)
Definition same_week (t1 t2 : Calendar.date) : Prop :=
  Calendar.toordinal t1 - Calendar.weekday t1 =
  Calendar.toordinal t2 - Calendar.weekday t2.

(** The request that [write_records_to_bitable] makes once it has a
    token. *)
Definition batch_request (env : environ) (token : json)
  (records : list bitable_record) : request :=
  POST ("https://open.feishu.cn/open-apis/bitable/v1/apps/"
        ++ str_or (BITABLE_APP_TOKEN env) "" ++ "/tables/"
        ++ str_or (BITABLE_TABLE_ID env) "" ++ "/records/batch_create")
    [("Authorization", Bearer token);
     ("Content-Type", Literal "application/json; charset=utf-8")]
    (Records records) 15.

(** An answer that the Feishu calls accept: a status that is no error
    status and a JSON object whose code is 0. *)
Definition accepted (a : option response) : Prop :=
  exists resp members,
    a = Some resp /\
    is_error_status (status_code resp) = false /\
    json_of_text resp = Some (JObj members) /\
    differs_from_zero (code_of members) = false.

(** Kinds of events. *)
Definition is_request (ev : event) : bool :=
  match ev with
  | Sent _ => true
  | _ => false
  end.

Definition is_table_traffic (ev : event) : bool :=
  match ev with
  | Sent (POST _ _ (AppCredentials _ _) _) => true
  | Sent (POST _ _ (Records _) _) => true
  | _ => false
  end.

(** The rows of the first two sample records. *)
Definition fields_of_sample_rows : list bitable_record :=
  build_bitable_records Samples.today Samples.today Samples.repos None
    "daily" 2.

(** What the table write can add to the log: nothing, the token request
    alone, or the token request followed by the batch request for the
    rows, with the printed count when it is accepted. *)
Inductive table_events (env : environ) (rows : list bitable_record)
  : list event -> Prop :=
| table_nothing : table_events env rows []
| table_token_only : table_events env rows [Sent (token_request env)]
| table_batch_refused : forall token,
    table_events env rows
      [Sent (token_request env); Sent (batch_request env token rows)]
| table_batch_written : forall token,
    table_events env rows
      [Sent (token_request env); Sent (batch_request env token rows);
       Stdout (InfoWrote (length rows))].

(** The rows that [main] builds at the state [s]: the clock is read
    twice, first for the date and then for the tag. *)
Definition rows_at (w : world) (args : Args.t) (repos : list repo)
  (s : state) : list bitable_record :=
  build_bitable_records (clock w (clock_reads s))
    (clock w (S (clock_reads s))) repos (Args.language args)
    (Args.since args) (Args.limit args).

(** The requests of a log. *)
Definition requests_of (l : list event) : list event := filter is_request l.

(** A block that holds another block. *)
Definition nesting_block : Soup.node :=
  Soup.Tag "article" [("class", "Box-row")] [ Page.block_bare ].

Definition nesting_page : Soup.node :=
  Soup.Tag "[document]" [] [ nesting_block ].

(** ** Searching the tree *)

Section Searching.
Import Soup Page.

Lemma hd_error_filter_none {A} (f : A -> bool) (l : list A) :
  hd_error (filter f l) = None <-> forall d, In d l -> f d = false.
Proof.
  induction l as [|x l IH]; simpl.
  - split; [intros _ d []|reflexivity].
  - destruct (f x) eqn:Hx; simpl.
    + split; [discriminate|].
      intros H. rewrite (H x (or_introl eq_refl)) in Hx. discriminate.
    + rewrite IH. split.
      * intros H d [<-|Hd]; auto.
      * intros H d Hd. apply H. now right.
Qed.

Lemma hd_error_filter_some {A} (f : A -> bool) (l : list A) (x : A) :
  hd_error (filter f l) = Some x <->
  exists before after,
    l = (before ++ x :: after)%list /\ f x = true /\
    forall d, In d before -> f d = false.
Proof.
  induction l as [|y l IH]; simpl.
  - split; [discriminate|].
    intros (before & after & H & _). destruct before; discriminate.
  - destruct (f y) eqn:Hy; simpl.
    + split.
      * intros [= ->]. exists [], l. repeat split; auto. intros d [].
      * intros (before & after & H & Hx & Hb).
        destruct before as [|b before]; simpl in H.
        -- now injection H as -> _.
        -- injection H as -> _.
           rewrite (Hb b (or_introl eq_refl)) in Hy. discriminate.
    + rewrite IH. split.
      * intros (before & after & -> & Hx & Hb).
        exists (y :: before), after. repeat split; auto.
        intros d [<-|Hd]; auto.
      * intros (before & after & H & Hx & Hb).
        destruct before as [|b before]; simpl in H.
        -- injection H as -> _. congruence.
        -- injection H as -> ->. exists before, after.
           repeat split; auto. intros d Hd. apply Hb. now right.
Qed.

Lemma find_none (n : node) (name : string) (flt : attr_filter) :
  find n name flt = None <-> absent n name flt.
Proof.
  apply (hd_error_filter_none (fun d => has_name name d && flt d)).
Qed.

Lemma find_some (n : node) (name : string) (flt : attr_filter) (x : node) :
  find n name flt = Some x <-> first_of n name flt x.
Proof.
  apply (hd_error_filter_some (fun d => has_name name d && flt d)).
Qed.

Lemma truthy_false (s : string) : PyStr.truthy s = false <-> s = "".
Proof. destruct s; simpl; split; congruence. Qed.

(** A block yields a record exactly when it has a title. *)
Lemma extract_item_some (item : node) :
  has_title item <-> exists r, Trending.extract_item item = Some r.
Proof.
  unfold has_title, Trending.extract_item. split.
  - intros (h2 & a & href & H1 & H2 & H3 & H4).
    apply find_some in H1, H2. rewrite H1, H2, H3. simpl.
    destruct href; [congruence|]. simpl. eauto.
  - intros [r H].
    destruct (find item "h2" no_filter) as [h2|] eqn:H1; [|discriminate].
    destruct (find h2 "a" no_filter) as [a|] eqn:H2; [|discriminate].
    destruct (get a "href") as [href|] eqn:H3; [|discriminate].
    apply find_some in H1, H2.
    exists h2, a, href. repeat split; auto.
    intros ->. discriminate.
Qed.

Lemma extract_item_none (item : node) :
  title_less item <-> Trending.extract_item item = None.
Proof.
  unfold title_less, Trending.extract_item. split.
  - intros [H|(h2 & H1 & [H|(a & H2 & [H|H])])].
    + apply find_none in H. now rewrite H.
    + apply find_some in H1. apply find_none in H. now rewrite H1, H.
    + apply find_some in H1, H2. now rewrite H1, H2, H.
    + apply find_some in H1, H2. now rewrite H1, H2, H.
  - intros H.
    destruct (find item "h2" no_filter) as [h2|] eqn:H1;
      [|left; now apply find_none].
    right. exists h2. apply find_some in H1. split; [assumption|].
    destruct (find h2 "a" no_filter) as [a|] eqn:H2;
      [|left; now apply find_none].
    right. exists a. apply find_some in H2. split; [assumption|].
    destruct (get a "href") as [href|]; [|now left].
    right. destruct href; [reflexivity|discriminate].
Qed.

(** Every block is of one of the two kinds. *)
Lemma titled_or_title_less (item : node) : has_title item \/ title_less item.
Proof.
  destruct (Trending.extract_item item) as [r|] eqn:H.
  - left. apply extract_item_some. eauto.
  - right. now apply extract_item_none.
Qed.

Lemma block_counts_total (blocks : list node) :
  exists N M, block_counts blocks N M /\ (N + M = length blocks)%nat.
Proof.
  induction blocks as [|b l (N & M & H & Hlen)].
  - exists 0%nat, 0%nat. split; [constructor|reflexivity].
  - destruct (titled_or_title_less b).
    + exists (S N), M. split; [now constructor|simpl; lia].
    + exists N, (S M). split; [now constructor|simpl; lia].
Qed.

Lemma extract_loop_length (blocks : list node) (N M : nat) :
  block_counts blocks N M ->
  forall results,
    length (Trending.extract_loop blocks results) = (length results + N)%nat.
Proof.
  induction 1 as [|b l N M Hb _ IH|b l N M Hb _ IH]; intros results; simpl.
  - lia.
  - apply extract_item_some in Hb as [r ->].
    rewrite IH, length_app. simpl. lia.
  - apply extract_item_none in Hb as ->. apply IH.
Qed.

End Searching.

(** [C1] A page whose blocks are [N] blocks with a title and [M] blocks
    whose title element is missing yields exactly [N] records.  The title
    element is the first heading of the block and the first link in that
    heading, with a non-empty target.  A block without it yields nothing;
    a block with it yields a record whose description or language is
    empty, or whose star count is absent, when the corresponding part of
    the block is missing. *)
Theorem extract_yields_titled_blocks (soup : Soup.node) (N M : nat) :
  Page.block_counts
    (Soup.find_all soup "article" (Soup.class_ "Box-row")) N M ->
  length (Trending.extract soup) = N /\
  (forall item, Page.title_less item -> Trending.extract_item item = None) /\
  (forall item, Page.has_title item ->
     exists r, Trending.extract_item item = Some r /\
       (Page.absent item "p" Soup.no_filter -> Repo.description r = "") /\
       (Page.absent item "span" Page.language_span -> Repo.language r = "") /\
       (Page.absent item "a" Page.stargazers_link -> Repo.stars r = None) /\
       (Page.absent item "span" Page.today_span ->
          Repo.stars_today r = None)).
Proof.
  intros Hcounts. split; [|split].
  - unfold Trending.extract. now rewrite (extract_loop_length _ _ _ Hcounts).
  - intros item. apply extract_item_none.
  - intros item Htitle. apply extract_item_some in Htitle as [r Hr].
    exists r. split; [assumption|].
    unfold Trending.extract_item in Hr.
    destruct (Soup.find item "h2" Soup.no_filter) as [h2|]; [|discriminate].
    destruct (Soup.find h2 "a" Soup.no_filter) as [a|]; [|discriminate].
    destruct (negb _); [discriminate|].
    destruct (Soup.get a "href"); [|discriminate].
    injection Hr as <-. simpl. repeat split; intros Habs.
    + unfold Trending.description_of.
      assert (Hp : Soup.find item "p" Soup.no_filter = None)
        by now apply find_none.
      assert (Hc : Soup.find item "p" (Soup.class_ "col-9") = None).
      { apply find_none. intros d Hd. specialize (Habs d Hd).
        apply andb_false_iff in Habs as [->| Hf]; [reflexivity|].
        discriminate. }
      now rewrite Hc, Hp.
    + unfold Trending.language_of.
      apply find_none in Habs. unfold Page.language_span in Habs.
      now rewrite Habs.
    + unfold Trending.stars_of.
      apply find_none in Habs. unfold Page.stargazers_link in Habs.
      now rewrite Habs.
    + unfold Trending.stars_today_of.
      apply find_none in Habs. unfold Page.today_span in Habs.
      now rewrite Habs.
Qed.

Lemma sample_page_counts :
  Page.block_counts
    (Soup.find_all Page.sample_page "article" (Soup.class_ "Box-row")) 2 1.
Proof.
  change (Page.block_counts
            [Page.block_full; Page.block_untitled; Page.block_bare] 2 1).
  apply Page.counts_titled.
  { apply extract_item_some. eexists. reflexivity. }
  apply Page.counts_title_less.
  { apply extract_item_none. reflexivity. }
  apply Page.counts_titled.
  { apply extract_item_some. eexists. reflexivity. }
  constructor.
Qed.

Lemma extract_yields_titled_blocks_witness :
  Page.block_counts
    (Soup.find_all Page.sample_page "article" (Soup.class_ "Box-row")) 2 1 /\
  length (Trending.extract Page.sample_page) = 2%nat.
Proof.
  split; [exact sample_page_counts|].
  apply (extract_yields_titled_blocks Page.sample_page 2 1).
  exact sample_page_counts.
Defined.

(** ** Truncation and ranks *)

Section Truncation.

Lemma str_app_assoc (a b c : string) : (a ++ b) ++ c = a ++ b ++ c.
Proof. induction a as [|x a IH]; simpl; [reflexivity|now rewrite IH]. Qed.

Lemma enumerate_length {A} (l : list A) (start : Z) :
  length (enumerate l start) = length l.
Proof.
  revert start. induction l as [|x l IH]; intros start; simpl; auto.
Qed.

Lemma enumerate_nth {A} (l : list A) (start : Z) (i : nat) :
  nth_error (enumerate l start) i =
  option_map (fun x => (start + Z.of_nat i, x)) (nth_error l i).
Proof.
  revert start i. induction l as [|x l IH]; intros start [|i]; simpl; auto.
  - now rewrite Z.add_0_r.
  - rewrite IH. destruct (nth_error l i); simpl; [|reflexivity].
    do 2 f_equal. lia.
Qed.

Lemma records_loop_map (date_ms : Z) (source : string)
  (l : list (Z * repo)) (records : list bitable_record) :
  records_loop date_ms source l records =
  (records ++ map (fun p => bitable_row date_ms source (fst p) (snd p)) l)%list.
Proof.
  revert records. induction l as [|[idx r] l IH]; intros records; simpl.
  - now rewrite app_nil_r.
  - rewrite IH, <- app_assoc. reflexivity.
Qed.

Lemma entries_loop_map (shorten : string -> string)
  (l : list (Z * repo)) (elements : list element) :
  entries_loop shorten l elements =
  (elements ++ map (fun p => card_entry shorten (fst p) (snd p)) l)%list.
Proof.
  revert elements. induction l as [|[idx r] l IH]; intros elements; simpl.
  - now rewrite app_nil_r.
  - rewrite IH, <- app_assoc. reflexivity.
Qed.

Lemma build_bitable_records_map now_date now_tag repos language since limit :
  build_bitable_records now_date now_tag repos language since limit =
  map (fun p => bitable_row (current_date_ms now_date)
                  (build_source_tag now_tag since language) (fst p) (snd p))
      (enumerate (slice_to repos limit) 1).
Proof. unfold build_bitable_records. now rewrite records_loop_map. Qed.

Lemma card_entries_map shorten repos language since limit :
  card_entries (build_feishu_card shorten repos language since limit) =
  map (fun p => card_entry shorten (fst p) (snd p))
      (enumerate (slice_to repos limit) 1).
Proof.
  unfold card_entries, build_feishu_card. simpl body_elements.
  rewrite entries_loop_map.
  set (es := map _ _).
  rewrite <- !app_assoc. simpl.
  rewrite !length_app. simpl.
  replace (length es + 2 - 2)%nat with (length es + 0)%nat by lia.
  rewrite firstn_app_2. simpl. now rewrite app_nil_r.
Qed.

Lemma slice_to_nonneg {A} (l : list A) (limit : Z) :
  0 <= limit -> slice_to l limit = firstn (Z.to_nat limit) l.
Proof.
  intros H. unfold slice_to.
  destruct (limit <? 0) eqn:E; [apply Z.ltb_lt in E; lia|reflexivity].
Qed.

Lemma slice_to_length {A} (l : list A) (limit : Z) :
  0 <= limit <= Z.of_nat (length l) ->
  Z.of_nat (length (slice_to l limit)) = limit.
Proof.
  intros H. rewrite slice_to_nonneg by lia.
  rewrite length_firstn. lia.
Qed.

Lemma slice_to_nth {A} (l : list A) (limit : Z) (i : nat) :
  0 <= limit -> Z.of_nat i < limit ->
  nth_error (slice_to l limit) i = nth_error l i.
Proof.
  intros H Hi. rewrite slice_to_nonneg by lia.
  rewrite nth_error_firstn.
  destruct (Nat.ltb_spec i (Z.to_nat limit)); [reflexivity|lia].
Qed.

End Truncation.

(** [C2], as stated, fails for a negative limit: with three records and
    [limit = -1] the slice drops the last record, so two rows and two
    card entries are produced. *)
Lemma negative_limit_keeps_all_but_last :
  Z.of_nat (length Samples.repos) > -1 /\
  length (build_bitable_records Samples.today Samples.today Samples.repos
            None "daily" (-1)) = 2%nat /\
  length (card_entries
            (build_feishu_card Samples.keep Samples.repos None "daily" (-1)))
    = 2%nat /\
  Z.of_nat
    (length (build_bitable_records Samples.today Samples.today Samples.repos
               None "daily" (-1))) <> -1 /\
  Z.of_nat
    (length (card_entries
               (build_feishu_card Samples.keep Samples.repos None "daily"
                  (-1)))) <> -1.
Proof. vm_compute. repeat split; congruence. Qed.

(** [C2] (amended) For a record list of length [N] and a limit [k] with
    [0 <= k < N], exactly [k] table rows and exactly [k] card entries are
    produced, and for [i] from 1 to [k] the [i]-th row has [Rank] [i] and
    the [i]-th card entry is numbered [i]; both are made from the [i]-th
    record. *)
Theorem truncation_ranks (shorten : string -> string)
  (now_date now_tag : Calendar.date) (repos : list repo)
  (language : option string) (since : string) (k : Z) :
  0 <= k < Z.of_nat (length repos) ->
  let rows := build_bitable_records now_date now_tag repos language since k in
  let entries :=
    card_entries (build_feishu_card shorten repos language since k) in
  Z.of_nat (length rows) = k /\
  Z.of_nat (length entries) = k /\
  forall i, 1 <= i <= k ->
    exists r row rest,
      nth_error repos (Z.to_nat (i - 1)) = Some r /\
      nth_error rows (Z.to_nat (i - 1)) = Some row /\
      Row.Rank (fields row) = i /\
      Row.Repo (fields row) = Repo.name r /\
      nth_error entries (Z.to_nat (i - 1)) =
        Some (Markdown (PyStr.of_int i ++ ". **" ++ Repo.name r ++ "**"
                        ++ rest)).
Proof.
  intros Hk rows entries. subst rows entries.
  rewrite build_bitable_records_map, card_entries_map.
  rewrite !length_map, enumerate_length, slice_to_length by lia.
  repeat split.
  intros i Hi.
  destruct (nth_error repos (Z.to_nat (i - 1))) as [r|] eqn:Hr.
  2:{ apply nth_error_None in Hr. lia. }
  assert (He : nth_error (enumerate (slice_to repos k) 1) (Z.to_nat (i - 1))
               = Some (i, r)).
  { rewrite enumerate_nth, slice_to_nth, Hr by lia.
    replace (1 + Z.of_nat (Z.to_nat (i - 1))) with i by lia.
    reflexivity. }
  eexists r, _, _. split; [reflexivity|].
  rewrite !nth_error_map, He. simpl.
  repeat split.
Qed.

Lemma truncation_ranks_witness :
  0 <= 2 < Z.of_nat (length Samples.repos) /\
  Z.of_nat
    (length (build_bitable_records Samples.today Samples.today Samples.repos
               (Some "ocaml") "weekly" 2)) = 2.
Proof.
  split; [simpl; lia|].
  apply (truncation_ranks Samples.keep Samples.today Samples.today
           Samples.repos (Some "ocaml") "weekly" 2).
  simpl. lia.
Defined.

(** [C10] A record of the truncated list with an absent star count gets
    the integer 0 in the corresponding field of its table row (a present
    count is copied), and its card entry carries the star text, which
    leaves out an absent figure and reads "stars: N/A" when both are
    absent. *)
Theorem absent_stars_become_zero_or_omitted (shorten : string -> string)
  (now_date now_tag : Calendar.date) (repos : list repo)
  (language : option string) (since : string) (limit : Z)
  (i : nat) (r : repo) :
  nth_error (slice_to repos limit) i = Some r ->
  (exists row,
     nth_error
       (build_bitable_records now_date now_tag repos language since limit) i
       = Some row /\
     (Repo.stars r = None -> Row.Stars (fields row) = 0) /\
     (Repo.stars_today r = None -> Row.TodayStars (fields row) = 0) /\
     (forall v, Repo.stars r = Some v -> Row.Stars (fields row) = v) /\
     (forall v, Repo.stars_today r = Some v ->
        Row.TodayStars (fields row) = v)) /\
  (exists before after,
     nth_error
       (card_entries (build_feishu_card shorten repos language since limit)) i
       = Some (Markdown (before
                         ++ stars_str (Repo.stars r) (Repo.stars_today r)
                         ++ after))) /\
  stars_str None None = "stars: N/A" /\
  (forall v, stars_str (Some v) None = glyph_star ++ " " ++ PyStr.of_int v) /\
  (forall t, stars_str None (Some t) = "+" ++ PyStr.of_int t ++ " today") /\
  (forall v t, stars_str (Some v) (Some t) =
     glyph_star ++ " " ++ PyStr.of_int v ++ " " ++ middle_dot ++ " "
     ++ "+" ++ PyStr.of_int t ++ " today").
Proof.
  intros Hr.
  assert (He : nth_error (enumerate (slice_to repos limit) 1) i
               = Some (1 + Z.of_nat i, r)).
  { now rewrite enumerate_nth, Hr. }
  split; [|split].
  - eexists. rewrite build_bitable_records_map, nth_error_map, He. simpl.
    split; [reflexivity|]. simpl.
    repeat split; intros; now match goal with H : _ = _ |- _ => rewrite H end.
  - rewrite card_entries_map, nth_error_map, He. simpl.
    exists (PyStr.of_int (1 + Z.of_nat i) ++ ". **" ++ Repo.name r
            ++ "**  " ++ nl).
    eexists. unfold card_entry. simpl fst. simpl snd.
    do 2 f_equal.
    rewrite !str_app_assoc. reflexivity.
  - repeat split; intros; unfold stars_str; simpl;
      rewrite ?str_app_assoc; reflexivity.
Qed.

Lemma absent_stars_become_zero_or_omitted_witness :
  nth_error (slice_to Samples.repos 2) 1 = Some Samples.r2 /\
  exists row,
    nth_error
      (build_bitable_records Samples.today Samples.today Samples.repos
         None "daily" 2) 1 = Some row /\
    Row.Stars (fields row) = 0 /\ Row.TodayStars (fields row) = 0.
Proof.
  split; [reflexivity|].
  destruct (absent_stars_become_zero_or_omitted Samples.keep Samples.today
              Samples.today Samples.repos None "daily" 2 1 Samples.r2
              eq_refl) as [(row & Hrow & Hs & Ht & _) _].
  exists row. split; [exact Hrow|].
  split; [apply Hs|apply Ht]; reflexivity.
Defined.

(** ** Reading integers *)

Section Integers.

Lemma digit_value_bounds (c : ascii) (d : Z) :
  PyStr.digit_value c = Some d -> 0 <= d <= 9.
Proof.
  unfold PyStr.digit_value, PyStr.in_range.
  destruct (_ && _) eqn:E; [|discriminate].
  intros [= <-]. apply andb_true_iff in E as [H1 H2].
  apply Z.leb_le in H1, H2. lia.
Qed.

Lemma scan_digits_nonneg (s : string) :
  forall acc prev_us v rest,
    0 <= acc ->
    PyStr.scan_digits acc prev_us s = Some (v, rest) -> 0 <= v.
Proof.
  induction s as [|c s IH]; intros acc prev_us v rest Hacc;
    cbn [PyStr.scan_digits].
  - destruct prev_us; [discriminate|]. now intros [= <- _].
  - destruct (PyStr.is_underscore c).
    + destruct prev_us; [discriminate|]. now apply IH.
    + destruct (PyStr.digit_value c) as [d|] eqn:Hd.
      * apply digit_value_bounds in Hd. apply IH. lia.
      * destruct prev_us; [discriminate|]. now intros [= <- _].
Qed.

Lemma read_magnitude_nonneg (s : string) (v : Z) (rest : string) :
  PyStr.read_magnitude s = Some (v, rest) -> 0 <= v.
Proof.
  unfold PyStr.read_magnitude. destruct s as [|c s]; [discriminate|].
  destruct (PyStr.digit_value c); [|discriminate].
  apply scan_digits_nonneg. lia.
Qed.

Lemma skip_blanks_mentions (c : ascii) (s : string) :
  PyStr.mentions c s = false ->
  PyStr.mentions c (PyStr.skip_blanks s) = false.
Proof.
  induction s as [|d s IH]; simpl; [auto|].
  intros H. apply orb_false_iff in H as [H1 H2].
  destruct (PyStr.c_isspace d); [auto|]. simpl. now rewrite H1, H2.
Qed.

Lemma to_ascii_form_minus (c : ascii) :
  Ascii.eqb (PyStr.to_ascii_form c) "-" = Ascii.eqb c "-".
Proof.
  unfold PyStr.to_ascii_form.
  destruct (127 <=? PyStr.code c) eqn:E; [|reflexivity].
  destruct (Ascii.eqb_spec c "-") as [->|_]; [discriminate E|].
  now destruct (PyStr.isspace c).
Qed.

Lemma ascii_form_mentions_minus (s : string) :
  PyStr.mentions "-" (PyStr.ascii_form s) = PyStr.mentions "-" s.
Proof.
  induction s as [|c s IH]; simpl; [reflexivity|].
  now rewrite to_ascii_form_minus, IH.
Qed.

Lemma read_sign_without_minus (s : string) :
  PyStr.mentions "-" s = false -> fst (PyStr.read_sign s) = 1.
Proof.
  destruct s as [|c r]; [reflexivity|]. simpl PyStr.mentions.
  intros H. apply orb_false_iff in H as [H _].
  destruct (Ascii.eqb_spec c "-") as [->|Hne]; [discriminate H|].
  destruct c as [[] [] [] [] [] [] [] []]; try reflexivity; congruence.
Qed.

(** A text without a minus sign never reads as a negative integer. *)
Lemma int_nonneg (s : string) (v : Z) :
  PyStr.int s = Some v -> PyStr.mentions "-" s = false -> 0 <= v.
Proof.
  unfold PyStr.int, PyStr.int_of_ascii_form. intros H Hm.
  rewrite <- ascii_form_mentions_minus in Hm.
  apply skip_blanks_mentions, read_sign_without_minus in Hm.
  destruct (PyStr.read_sign _) as [sign s2]. simpl in Hm. subst sign.
  destruct (PyStr.read_magnitude s2) as [[m rest]|] eqn:Hmag;
    [|discriminate].
  destruct (PyStr.skip_blanks rest); [|discriminate].
  injection H as <-. apply read_magnitude_nonneg in Hmag.
  destruct m; lia.
Qed.

End Integers.

(** ** Records and their blocks *)

Section Records.
Import Soup Page.

Lemma extract_loop_in (items : list node) (r : repo) :
  forall results,
    In r (Trending.extract_loop items results) <->
    In r results \/
    exists item, In item items /\ Trending.extract_item item = Some r.
Proof.
  induction items as [|item items IH]; intros results; simpl.
  - split; [auto|]. intros [H|(item & [] & _)]. exact H.
  - destruct (Trending.extract_item item) as [r0|] eqn:E; rewrite IH.
    + rewrite in_app_iff. simpl. split.
      * intros [[H|[<-|[]]]|(it & Hin & Hit)]; eauto 6.
      * intros [H|(it & [<-|Hin] & Hit)]; eauto 6.
        left. right. left. congruence.
    + split.
      * intros [H|(it & Hin & Hit)]; eauto 6.
      * intros [H|(it & [<-|Hin] & Hit)]; eauto 6. congruence.
Qed.

Lemma extract_in (soup : node) (r : repo) :
  In r (Trending.extract soup) <->
  exists item,
    In item (find_all soup "article" (class_ "Box-row")) /\
    Trending.extract_item item = Some r.
Proof.
  unfold Trending.extract. rewrite extract_loop_in. simpl.
  split; [intros [[]|H]; exact H|auto].
Qed.

Lemma split_not_nil (sep : ascii) (s : string) : PyStr.split sep s <> [].
Proof.
  destruct s as [|c s]; simpl; [discriminate|].
  destruct (Ascii.eqb c sep); [discriminate|].
  destruct (PyStr.split sep s); discriminate.
Qed.

Lemma stars_of_tag (item tag : node) :
  first_of item "a" stargazers_link tag ->
  Trending.stars_of item =
  PyStr.int (PyStr.remove_char "," (get_text_strip tag)).
Proof.
  intros H. apply find_some in H. unfold Trending.stars_of.
  unfold stargazers_link in H. now rewrite H.
Qed.

Lemma stars_today_of_tag (item tag : node) :
  first_of item "span" today_span tag ->
  Trending.stars_today_of item =
  PyStr.int (PyStr.remove_char "," (first_piece (get_text_strip tag))).
Proof.
  intros H. apply find_some in H. unfold Trending.stars_today_of.
  unfold today_span in H. rewrite H. unfold first_piece.
  pose proof (split_not_nil " " (get_text_strip tag)) as Hne.
  destruct (PyStr.split " " (get_text_strip tag)); [congruence|reflexivity].
Qed.

Lemma stars_of_some (item : node) (v : Z) :
  Trending.stars_of item = Some v ->
  exists tag, first_of item "a" stargazers_link tag.
Proof.
  unfold Trending.stars_of, stargazers_link.
  destruct (find item "a" _) as [tag|] eqn:E; [|discriminate].
  intros _. exists tag. now apply find_some.
Qed.

Lemma stars_today_of_some (item : node) (v : Z) :
  Trending.stars_today_of item = Some v ->
  exists tag, first_of item "span" today_span tag.
Proof.
  unfold Trending.stars_today_of, today_span.
  destruct (find item "span" _) as [tag|] eqn:E; [|discriminate].
  intros _. exists tag. now apply find_some.
Qed.

(** The fields of the record of a block. *)
Lemma extract_item_fields (item : node) (r : repo) :
  Trending.extract_item item = Some r ->
  Repo.description r = Trending.description_of item /\
  Repo.language r = Trending.language_of item /\
  Repo.stars r = Trending.stars_of item /\
  Repo.stars_today r = Trending.stars_today_of item.
Proof.
  unfold Trending.extract_item.
  destruct (find item "h2" no_filter) as [h2|]; [|discriminate].
  destruct (find h2 "a" no_filter) as [a|]; [|discriminate].
  destruct (negb _); [discriminate|].
  destruct (get a "href"); [|discriminate].
  intros [= <-]. simpl. auto.
Qed.

End Records.

(** [C9], as stated, fails: a star link that reads "-5" gives the record
    a star count of -5. *)
Lemma negative_star_count :
  exists r,
    In r (Trending.extract Page.negative_page) /\
    Repo.stars r = Some (-5) /\ -5 < 0.
Proof.
  eexists. split; [left; reflexivity|]. split; [reflexivity|lia].
Qed.

(** [C9] (amended) Every record produced by extraction comes from a
    block of the page, and each of its star counts that is present is the
    integer read from the figure of that block: the text of the star link
    without commas, or the text of the today span up to its first blank
    without commas.  The count is non-negative whenever that figure has no
    minus sign. *)
Theorem present_star_counts (soup : Soup.node) (r : repo) :
  In r (Trending.extract soup) ->
  exists item,
    In item (Soup.find_all soup "article" (Soup.class_ "Box-row")) /\
    Trending.extract_item item = Some r /\
    (forall v, Repo.stars r = Some v ->
       exists tag,
         Page.first_of item "a" Page.stargazers_link tag /\
         let figure := PyStr.remove_char "," (Soup.get_text_strip tag) in
         PyStr.int figure = Some v /\
         (PyStr.mentions "-" figure = false -> 0 <= v)) /\
    (forall v, Repo.stars_today r = Some v ->
       exists tag,
         Page.first_of item "span" Page.today_span tag /\
         let figure :=
           PyStr.remove_char ","
             (Page.first_piece (Soup.get_text_strip tag)) in
         PyStr.int figure = Some v /\
         (PyStr.mentions "-" figure = false -> 0 <= v)).
Proof.
  intros Hin. apply extract_in in Hin as (item & Hitem & Hr).
  exists item. split; [assumption|]. split; [assumption|].
  apply extract_item_fields in Hr as (_ & _ & Hs & Ht).
  rewrite Hs, Ht. split; intros v Hv.
  - destruct (stars_of_some _ _ Hv) as [tag Htag].
    exists tag. split; [assumption|].
    rewrite (stars_of_tag _ _ Htag) in Hv.
    split; [assumption|]. now apply int_nonneg.
  - destruct (stars_today_of_some _ _ Hv) as [tag Htag].
    exists tag. split; [assumption|].
    rewrite (stars_today_of_tag _ _ Htag) in Hv.
    split; [assumption|]. now apply int_nonneg.
Qed.

Lemma present_star_counts_witness :
  In Samples.r1 (Trending.extract Page.sample_page) /\
  exists item,
    In item (Soup.find_all Page.sample_page "article"
               (Soup.class_ "Box-row")) /\
    Trending.extract_item item = Some Samples.r1.
Proof.
  assert (H : In Samples.r1 (Trending.extract Page.sample_page))
    by (left; reflexivity).
  split; [exact H|].
  destruct (present_star_counts Page.sample_page Samples.r1 H)
    as (item & Hin & Hr & _).
  exists item. split; assumption.
Defined.

(** ** Running the fetch *)

Lemma fetch_trending_ok (w : world) (language : option string)
  (since : string) (st : state) (resp : response) :
  answer w (trending_request language since) = Some resp ->
  is_error_status (status_code resp) = false ->
  fetch_trending w language since st =
  (Ret (Trending.extract (soup_of_text resp)),
   logged st [Sent (trending_request language since)]).
Proof.
  intros Hresp Hok.
  unfold fetch_trending, send, raise_for_status, bind, emit, ret.
  fold (trending_request language since). simpl.
  rewrite Hresp, Hok. reflexivity.
Qed.

(** [C4], as stated, fails for the today span: its text "12 stars today"
    does not read as an integer once commas are removed, and still the
    record has 12 stars today, because only the text up to the first blank
    is read. *)
Lemma today_text_with_words_is_read :
  exists tag r,
    Page.first_of Page.block_full "span" Page.today_span tag /\
    Soup.get_text_strip tag = "12 stars today" /\
    PyStr.int (PyStr.remove_char "," (Soup.get_text_strip tag)) = None /\
    Trending.extract_item Page.block_full = Some r /\
    Repo.stars_today r = Some 12.
Proof.
  eexists _, _. split; [apply find_some; reflexivity|].
  repeat split.
Qed.

(** [C4] (amended) When the page has been received, [fetch_trending]
    returns the extracted list and raises nothing, whatever the star
    figures read.  The record of a block with a title has an absent star
    count when the text of its star link, commas removed, does not read as
    an integer, and an absent count for today when the text of its today
    span up to the first blank, commas removed, does not read as an
    integer; the other fields of the record are the ones the block gives
    in any case. *)
Theorem unreadable_star_figures (w : world) (language : option string)
  (since : string) (st : state) (resp : response) (item : Soup.node) :
  answer w (trending_request language since) = Some resp ->
  is_error_status (status_code resp) = false ->
  In item (Soup.find_all (soup_of_text resp) "article"
             (Soup.class_ "Box-row")) ->
  Page.has_title item ->
  exists repos r,
    fetch_trending w language since st =
      (Ret repos, logged st [Sent (trending_request language since)]) /\
    In r repos /\
    Trending.extract_item item = Some r /\
    Repo.description r = Trending.description_of item /\
    Repo.language r = Trending.language_of item /\
    (forall tag,
       Page.first_of item "a" Page.stargazers_link tag ->
       PyStr.int (PyStr.remove_char "," (Soup.get_text_strip tag)) = None ->
       Repo.stars r = None /\
       Repo.stars_today r = Trending.stars_today_of item) /\
    (forall tag,
       Page.first_of item "span" Page.today_span tag ->
       PyStr.int (PyStr.remove_char ","
                    (Page.first_piece (Soup.get_text_strip tag))) = None ->
       Repo.stars_today r = None /\
       Repo.stars r = Trending.stars_of item).
Proof.
  intros Hresp Hok Hin Htitle.
  apply extract_item_some in Htitle as [r Hr].
  exists (Trending.extract (soup_of_text resp)), r.
  split; [now apply fetch_trending_ok|].
  split; [apply extract_in; eauto|].
  split; [assumption|].
  destruct (extract_item_fields _ _ Hr) as (Hd & Hl & Hs & Ht).
  repeat split; try assumption.
  - now rewrite Hs, (stars_of_tag _ _ H).
  - now rewrite Ht, (stars_today_of_tag _ _ H).
Qed.

(** ** Running the script *)

Section Runs.

Variable shorten : string -> string.
Variable w : world.
Variable env : environ.

Lemma never_exits_ret {A} (a : A) : never_exits (ret a).
Proof. intros s c s'. discriminate. Qed.

Lemma never_exits_raise {A} (e : exn) : never_exits (@raise A e).
Proof. intros s c s'. discriminate. Qed.

Lemma never_exits_emit (ev : event) : never_exits (emit ev).
Proof. intros s c s'. discriminate. Qed.

Lemma never_exits_bind {A B} (m : M A) (k : A -> M B) :
  never_exits m -> (forall a, never_exits (k a)) -> never_exits (bind m k).
Proof.
  intros Hm Hk s c s'. unfold bind.
  destruct (m s) as [[a|e|c0] s1] eqn:E.
  - apply Hk.
  - discriminate.
  - now apply Hm in E.
Qed.

Lemma never_exits_try {A} (m : M A) (h : exn -> M A) :
  never_exits m -> (forall e, never_exits (h e)) -> never_exits (try_except m h).
Proof.
  intros Hm Hh s c s'. unfold try_except.
  destruct (m s) as [[a|e|c0] s1] eqn:E.
  - discriminate.
  - apply Hh.
  - now apply Hm in E.
Qed.

Lemma never_exits_utcnow : never_exits (utcnow w).
Proof. intros s c s'. discriminate. Qed.

Lemma never_exits_send (r : request) : never_exits (send w r).
Proof.
  apply never_exits_bind; [apply never_exits_emit|]. intros _.
  destruct (answer w r); [apply never_exits_ret|apply never_exits_raise].
Qed.

Lemma never_exits_raise_for_status (resp : response) :
  never_exits (raise_for_status resp).
Proof.
  unfold raise_for_status.
  destruct (is_error_status _);
    [apply never_exits_raise|apply never_exits_ret].
Qed.

Lemma never_exits_resp_json (resp : response) : never_exits (resp_json resp).
Proof.
  unfold resp_json.
  destruct (json_of_text resp);
    [apply never_exits_ret|apply never_exits_raise].
Qed.

Lemma never_exits_data_get (data : json) (key : string) :
  never_exits (data_get data key).
Proof.
  destruct data; try apply never_exits_raise. apply never_exits_ret.
Qed.

Lemma never_exits_data_item (data : json) (key : string) :
  never_exits (data_item data key).
Proof.
  destruct data; try apply never_exits_raise. simpl.
  destruct (members_get key members);
    [apply never_exits_ret|apply never_exits_raise].
Qed.

Create HintDb exits.

#[local] Hint Resolve never_exits_ret never_exits_raise never_exits_emit
  never_exits_utcnow never_exits_send never_exits_raise_for_status
  never_exits_resp_json never_exits_data_get never_exits_data_item
  : exits.

Ltac no_exit :=
  repeat first
    [ apply never_exits_bind; [|intros ?]
    | apply never_exits_try; [|intros ?]
    | solve [auto with exits]
    | match goal with
      | |- never_exits (if ?b then _ else _) => destruct b
      | |- never_exits (match ?x with _ => _ end) => destruct x
      end ].

Lemma never_exits_token : never_exits (get_tenant_access_token w env).
Proof. unfold get_tenant_access_token. no_exit. Qed.

Lemma never_exits_write (records : list bitable_record) :
  never_exits (write_records_to_bitable w env records).
Proof.
  unfold write_records_to_bitable, print.
  destruct records; [apply never_exits_ret|].
  destruct (negb _); [apply never_exits_raise|].
  apply never_exits_bind; [apply never_exits_token|intros ?].
  no_exit.
Qed.

Lemma never_exits_table_write (args : Args.t) (repos : list repo) :
  never_exits (table_write w env args repos).
Proof.
  unfold table_write.
  apply never_exits_bind; [apply never_exits_utcnow|intros ?].
  apply never_exits_bind; [apply never_exits_utcnow|intros ?].
  apply never_exits_write.
Qed.

(** The table step always comes back normally: what it raises is caught. *)
Lemma table_step_returns (args : Args.t) (repos : list repo) (s : state) :
  exists s', table_step w env args repos s = (Ret tt, s').
Proof.
  unfold table_step. destruct (negb (bitable_ready env)).
  - eexists. reflexivity.
  - unfold try_except.
    destruct (table_write w env args repos s) as [[[]|e|c] s1] eqn:E.
    + eauto.
    + eexists. reflexivity.
    + now apply never_exits_table_write in E.
Qed.

Lemma fetch_trending_run (language : option string) (since : string)
  (s : state) :
  fetch_trending w language since s =
  (fetch_outcome (answer w (trending_request language since)),
   logged s [Sent (trending_request language since)]).
Proof.
  unfold fetch_trending, send, raise_for_status, bind, emit, ret, raise.
  fold (trending_request language since). simpl.
  unfold fetch_outcome.
  destruct (answer w (trending_request language since)) as [resp|];
    [|reflexivity].
  destruct (is_error_status (status_code resp)); reflexivity.
Qed.

Lemma send_card_run (webhook_url : string) (c : card) (s : state) :
  exists evs,
    send_card_to_feishu w webhook_url c s =
    (send_outcome (answer w (webhook_request webhook_url c)),
     logged s (Sent (webhook_request webhook_url c) :: evs)).
Proof.
  unfold send_card_to_feishu, send, raise_for_status, resp_json, data_get,
    try_except, print_err, bind, emit, ret, raise.
  fold (webhook_request webhook_url c). simpl.
  unfold send_outcome, logged, code_of.
  destruct (answer w (webhook_request webhook_url c)) as [resp|]; simpl.
  2:{ exists []. reflexivity. }
  destruct (is_error_status (status_code resp)); simpl.
  { eexists. rewrite <- !app_assoc. reflexivity. }
  destruct (json_of_text resp) as [[| | | | |members]|]; simpl;
    try (exists []; reflexivity).
  destruct (differs_from_zero _); simpl.
  - eexists. rewrite <- !app_assoc. reflexivity.
  - exists []. reflexivity.
Qed.

Lemma card_step_run (webhook_url : string) (args : Args.t)
  (repos : list repo) (s : state) :
  let c := build_feishu_card shorten repos (Args.language args)
             (Args.since args) (Args.limit args) in
  exists evs,
    card_step shorten w webhook_url args repos s =
    (match send_outcome (answer w (webhook_request webhook_url c)) with
     | Ret _ => Ret tt
     | Raise _ => Exit 1
     | Exit status => Exit status
     end,
     logged s (Sent (webhook_request webhook_url c) :: evs)).
Proof.
  intros c. unfold card_step. fold c.
  destruct (send_card_run webhook_url c s) as [evs Hsend].
  unfold bind at 1. unfold try_except. rewrite Hsend.
  destruct (send_outcome _) as [[]|e|status].
  - eexists. unfold print, emit, logged. simpl.
    rewrite <- app_assoc. reflexivity.
  - eexists. unfold print_err, sys_exit, bind, emit, logged. simpl.
    rewrite <- app_assoc. reflexivity.
  - eexists. reflexivity.
Qed.

Lemma send_outcome_never_exits (a : option response) (status : Z) :
  send_outcome a <> Exit status.
Proof.
  unfold send_outcome. destruct a as [resp|]; [|discriminate].
  destruct (is_error_status _); [discriminate|].
  destruct (json_of_text resp) as [[| | | | |members]|]; try discriminate.
  destruct (differs_from_zero _); discriminate.
Qed.

Lemma fetch_outcome_never_exits (a : option response) (status : Z) :
  fetch_outcome a <> Exit status.
Proof.
  unfold fetch_outcome. destruct a as [resp|]; [|discriminate].
  destruct (is_error_status _); discriminate.
Qed.

End Runs.

(** ** The exit status of [main] *)

Section MainStatus.

Variable shorten : string -> string.
Variable env : environ.
Variable args : Args.t.

Lemma main_status_table (w : world) :
  main_status shorten w env args = status_table shorten env args w.
Proof.
  unfold main_status, status_table, main.
  destruct (webhook_url_of env args) as [[|c0 u]|]; try reflexivity.
  unfold bind at 1. unfold try_except. rewrite fetch_trending_run.
  destruct (fetch_outcome _) as [[|r repos]|e|status]; try reflexivity.
  unfold bind.
  destruct (table_step_returns w env args (r :: repos)
              (logged initial
                 [Sent (trending_request (Args.language args)
                          (Args.since args))])) as [s' ->].
  destruct (card_step_run shorten w (String c0 u) args (r :: repos) s')
    as [evs ->].
  unfold card_of.
  destruct (send_outcome _) as [[]|e|status]; reflexivity.
Qed.

Lemma fetched_outcome (w : world) :
  fetched w args =
  fetch_outcome
    (answer w (trending_request (Args.language args) (Args.since args))).
Proof. unfold fetched. now rewrite fetch_trending_run. Qed.

Lemma sent_outcome (w : world) (webhook_url : string) (repos : list repo) :
  sent shorten w args webhook_url repos =
  send_outcome
    (answer w (webhook_request webhook_url (card_of shorten args repos))).
Proof.
  unfold sent.
  destruct (send_card_run w webhook_url (card_of shorten args repos) initial)
    as [evs ->].
  reflexivity.
Qed.

Lemma status_table_same (w w' : world) :
  same_outside_table w w' ->
  status_table shorten env args w' = status_table shorten env args w.
Proof.
  intros [Hget Hpost]. unfold status_table, trending_request, webhook_request.
  rewrite <- Hget.
  destruct (webhook_url_of env args) as [[|c0 u]|]; try reflexivity.
  destruct (fetch_outcome _) as [[|r repos]|e|status]; try reflexivity.
  now rewrite <- Hpost.
Qed.

End MainStatus.

(** [C5] [main] exits with status 0 or 1.  The status is 1 exactly when
    the webhook URL is missing, or the fetch raises, or (the URL being
    there and the fetch having returned a non-empty list) the sending of
    the card raises.  It is 0 when the fetch returns no record and when
    every step succeeds.  Two worlds that differ only in their answers to
    the token and table requests give the same status. *)
Theorem main_exit_status (shorten : string -> string) (w : world)
  (env : environ) (args : Args.t) :
  (main_status shorten w env args = 0 \/ main_status shorten w env args = 1) /\
  (main_status shorten w env args = 1 <->
     webhook_missing env args \/
     (exists e, fetched w args = Raise e) \/
     (exists webhook_url repos e,
        webhook_url_of env args = Some webhook_url /\
        fetched w args = Ret repos /\ repos <> [] /\
        sent shorten w args webhook_url repos = Raise e)) /\
  (~ webhook_missing env args -> fetched w args = Ret [] ->
     main_status shorten w env args = 0) /\
  (forall webhook_url repos,
     webhook_url_of env args = Some webhook_url -> webhook_url <> "" ->
     fetched w args = Ret repos ->
     sent shorten w args webhook_url repos = Ret tt ->
     main_status shorten w env args = 0) /\
  (forall w', same_outside_table w w' ->
     main_status shorten w' env args = main_status shorten w env args).
Proof.
  assert (Hsent := sent_outcome shorten args w).
  assert (Hfetched := fetched_outcome args w).
  assert (Hfx := fetch_outcome_never_exits
                   (answer w (trending_request (Args.language args)
                                (Args.since args)))).
  rewrite !main_status_table. unfold webhook_missing.
  rewrite Hfetched. clear Hfetched.
  unfold status_table.
  destruct (webhook_url_of env args) as [url|] eqn:Hurl.
  2:{ simpl. repeat split; auto; try discriminate.
      - intros H. now elim H.
      - intros w' Hw. rewrite main_status_table. unfold status_table.
        now rewrite Hurl. }
  assert (Hw' : forall w', same_outside_table w w' ->
            main_status shorten w' env args = status_table shorten env args w).
  { intros w' Hw. rewrite main_status_table. now apply status_table_same. }
  unfold status_table in Hw'. rewrite Hurl in Hw'.
  destruct url as [|c0 u].
  { simpl. repeat split; auto; try discriminate.
    - intros H. now elim H.
    - intros ? ? [= <-] H. now elim H. }
  simpl truthy_opt.
  destruct (fetch_outcome _) as [[|r repos]|e|status] eqn:Hf.
  - repeat split; auto; try discriminate.
    intros [H|[[e H]|(url & repos & e & _ & H & Hne & _)]];
      try discriminate.
    injection H as <-. now elim Hne.
  - specialize (Hsent (String c0 u) (r :: repos)).
    pose proof (send_outcome_never_exits
                  (answer w (webhook_request (String c0 u)
                               (card_of shorten args (r :: repos))))) as Hsx.
    destruct (send_outcome _) as [[]|e|status] eqn:Hs.
    + repeat split; auto; try discriminate.
      intros [H|[[e H]|(url & repos' & e & [= <-] & [= <-] & _ & H)]];
        try discriminate.
      rewrite Hsent in H. discriminate.
    + repeat split; auto; try discriminate.
      * intros _. right. right.
        exists (String c0 u), (r :: repos), e.
        repeat split; auto. discriminate.
      * intros url repos' [= <-] _ [= <-] H. rewrite Hsent in H.
        discriminate.
    + now elim (Hsx status).
  - repeat split; auto; try discriminate.
    intros _. right. left. now exists e.
  - now elim (Hfx status).
Qed.

(** [C8] With an empty record list [write_records_to_bitable] returns at
    once: nothing is raised, whatever the configuration, and the log is
    unchanged, so neither the token request nor the batch request is
    sent. *)
Theorem write_nothing_is_a_no_op (w : world) (env : environ) (s : state) :
  write_records_to_bitable w env [] s = (Ret tt, s).
Proof. reflexivity. Qed.

(** ** A failing table write *)

(** [C6] In a run that reaches the table write (webhook URL present, a
    non-empty list fetched, configuration complete), when the table write
    raises [e], the table step still comes back normally after printing
    the error, [main] goes on with the card step, the request that posts
    the card is the next thing after the error message in the log, and
    the exit status is decided by the sending of the card alone. *)
Theorem table_failure_is_caught (shorten : string -> string) (w : world)
  (env : environ) (args : Args.t) (webhook_url : string)
  (repos : list repo) (e : exn) (s1 s2 : state) :
  webhook_url_of env args = Some webhook_url -> webhook_url <> "" ->
  fetch_trending w (Args.language args) (Args.since args) initial
    = (Ret repos, s1) ->
  repos <> [] ->
  bitable_ready env = true ->
  table_write w env args repos s1 = (Raise e, s2) ->
  let c := card_of shorten args repos in
  let s3 := logged s2 [Stderr (ErrorBitable e)] in
  table_step w env args repos s1 = (Ret tt, s3) /\
  main shorten w env args initial =
    card_step shorten w webhook_url args repos s3 /\
  (exists evs,
     log (snd (main shorten w env args initial)) =
     (log s2 ++ Stderr (ErrorBitable e)
        :: Sent (webhook_request webhook_url c) :: evs)%list) /\
  main_status shorten w env args =
    match send_outcome (answer w (webhook_request webhook_url c)) with
    | Ret _ => 0
    | _ => 1
    end.
Proof.
  intros Hurl Hne Hfetch Hrepos Hready Hwrite c s3.
  assert (Hstep : table_step w env args repos s1 = (Ret tt, s3)).
  { unfold table_step. rewrite Hready. cbn [negb].
    unfold try_except. rewrite Hwrite. reflexivity. }
  assert (Hmain : main shorten w env args initial =
                  card_step shorten w webhook_url args repos s3).
  { unfold main. rewrite Hurl.
    destruct webhook_url as [|c0 u]; [now elim Hne|].
    unfold bind at 1. unfold try_except. rewrite Hfetch.
    destruct repos as [|r repos']; [now elim Hrepos|].
    unfold bind at 1. rewrite Hstep. reflexivity. }
  split; [exact Hstep|]. split; [exact Hmain|].
  destruct (card_step_run shorten w webhook_url args repos s3) as [evs Hcard].
  split.
  - exists evs. rewrite Hmain, Hcard. unfold s3, logged. simpl.
    now rewrite <- app_assoc.
  - unfold main_status. rewrite Hmain, Hcard. simpl. fold c.
    pose proof (send_outcome_never_exits
                  (answer w (webhook_request webhook_url c))) as Hsx.
    destruct (send_outcome _) as [[]|e'|status]; try reflexivity.
    now elim (Hsx status).
Qed.

Lemma table_failure_is_caught_witness :
  fst (table_write Samples.world_table_refused Samples.env_full
         Samples.args_default (Trending.extract Page.sample_page)
         (snd (fetch_trending Samples.world_table_refused None "daily"
                 initial)))
    = Raise Samples.refusal /\
  main_status Samples.keep Samples.world_table_refused Samples.env_full
    Samples.args_default = 0.
Proof.
  split; [reflexivity|].
  destruct (table_failure_is_caught Samples.keep Samples.world_table_refused
              Samples.env_full Samples.args_default
              "https://hook.example/abc"
              (Trending.extract Page.sample_page) Samples.refusal
              (snd (fetch_trending Samples.world_table_refused None "daily"
                      initial))
              (snd (table_write Samples.world_table_refused Samples.env_full
                      Samples.args_default
                      (Trending.extract Page.sample_page)
                      (snd (fetch_trending Samples.world_table_refused None
                              "daily" initial)))))
    as (_ & _ & _ & Hstatus).
  - reflexivity.
  - discriminate.
  - reflexivity.
  - discriminate.
  - reflexivity.
  - reflexivity.
  - rewrite Hstatus. reflexivity.
Defined.

(** ** The token *)

(** [C7], as stated, fails: with the app id and secret set, the request
    answered with status 200 and a body whose code is 0, the function
    still raises when the body has no token. *)
Lemma token_missing_in_body_raises :
  truthy_opt (FEISHU_APP_ID Samples.env_full) = true /\
  truthy_opt (FEISHU_APP_SECRET Samples.env_full) = true /\
  (exists resp,
     answer Samples.world_no_token (token_request Samples.env_full)
       = Some resp /\
     status_code resp = 200 /\
     json_of_text resp = Some (JObj [("code", JInt 0)])) /\
  fst (get_tenant_access_token Samples.world_no_token Samples.env_full
         initial)
    = Raise (KeyError "tenant_access_token").
Proof.
  repeat split. eexists. repeat split.
Qed.

Lemma get_tenant_access_token_run (w : world) (env : environ) (s : state) :
  fst (get_tenant_access_token w env s) =
  if negb (truthy_opt (FEISHU_APP_ID env))
     || negb (truthy_opt (FEISHU_APP_SECRET env))
  then Raise (RuntimeError "FEISHU_APP_ID / FEISHU_APP_SECRET not set" None)
  else token_outcome (answer w (token_request env)).
Proof.
  unfold get_tenant_access_token.
  destruct (_ || _); [reflexivity|].
  unfold send, raise_for_status, resp_json, data_get, data_item, bind, emit,
    ret, raise.
  fold (token_request env). simpl. unfold token_outcome, code_of.
  destruct (answer w (token_request env)) as [resp|]; [|reflexivity].
  simpl. destruct (is_error_status _); [reflexivity|]. simpl.
  destruct (json_of_text resp) as [[| | | | |members]|]; try reflexivity.
  simpl. destruct (differs_from_zero _); [reflexivity|].
  destruct (members_get "tenant_access_token" members); reflexivity.
Qed.

(** [C7] (amended) [get_tenant_access_token] raises when the app id or
    the app secret is unset, when the transport fails, when the HTTP
    status is an error status, when the body is not a JSON object, when
    the code in the body differs from 0 (or is not there), and when the
    body has no token; in every other case, and only then, it returns the
    token of the body. *)
Theorem get_tenant_access_token_result (w : world) (env : environ)
  (s : state) :
  let result := fst (get_tenant_access_token w env s) in
  let a := answer w (token_request env) in
  (forall token,
     result = Ret token <->
     truthy_opt (FEISHU_APP_ID env) = true /\
     truthy_opt (FEISHU_APP_SECRET env) = true /\
     exists resp members,
       a = Some resp /\
       is_error_status (status_code resp) = false /\
       json_of_text resp = Some (JObj members) /\
       differs_from_zero (code_of members) = false /\
       members_get "tenant_access_token" members = Some token) /\
  ((exists token, result = Ret token) \/ (exists e, result = Raise e)) /\
  (truthy_opt (FEISHU_APP_ID env) = false \/
   truthy_opt (FEISHU_APP_SECRET env) = false ->
   result = Raise (RuntimeError "FEISHU_APP_ID / FEISHU_APP_SECRET not set"
                     None)) /\
  (truthy_opt (FEISHU_APP_ID env) = true ->
   truthy_opt (FEISHU_APP_SECRET env) = true ->
   (a = None -> result = Raise RequestException) /\
   (forall resp, a = Some resp ->
      (is_error_status (status_code resp) = true ->
       result = Raise (HTTPError (status_code resp))) /\
      (is_error_status (status_code resp) = false ->
       (json_of_text resp = None -> result = Raise JSONDecodeError) /\
       (forall members, json_of_text resp = Some (JObj members) ->
          (differs_from_zero (code_of members) = true ->
           result = Raise (RuntimeError "get_tenant_access_token failed: "
                             (Some (JObj members)))) /\
          (differs_from_zero (code_of members) = false ->
           members_get "tenant_access_token" members = None ->
           result = Raise (KeyError "tenant_access_token")))))).
Proof.
  intros result a. subst result a.
  rewrite get_tenant_access_token_run. unfold token_outcome.
  destruct (truthy_opt (FEISHU_APP_ID env));
    destruct (truthy_opt (FEISHU_APP_SECRET env)); simpl;
    try (destruct (answer w (token_request env)) as [resp|];
         [destruct (is_error_status (status_code resp)) eqn:Hst;
          [|destruct (json_of_text resp) as [[| | | | |members]|] eqn:Hj;
            [| | | | |destruct (differs_from_zero (code_of members)) eqn:Hc;
                      [|destruct (members_get "tenant_access_token" members)
                          as [tok|] eqn:Ht]|]]|]);
    repeat match goal with
           | |- _ /\ _ => split
           | |- _ <-> _ => split
           | |- forall _, _ => intro
           | H : _ /\ _ |- _ => destruct H
           | H : exists _, _ |- _ => destruct H
           | H : _ \/ _ |- _ => destruct H
           | H : Some _ = Some _ |- _ => injection H as H; subst
           | H : Ret _ = Ret _ |- _ => injection H as H; subst
           end;
    try congruence; eauto 10.
Qed.

(** ** The calendar *)

Section IsoWeek.
Import Calendar.

Lemma days_before_year_succ (y : Z) :
  days_before_year (y + 1) =
  days_before_year y + (if is_leap y then 366 else 365).
Proof.
  unfold days_before_year, is_leap.
  replace (y + 1 - 1) with y by lia.
  destruct (Z.eqb_spec (y mod 4) 0) as [H4|H4];
    destruct (Z.eqb_spec (y mod 100) 0) as [H100|H100];
    destruct (Z.eqb_spec (y mod 400) 0) as [H400|H400];
    simpl; Z.div_mod_to_equations; lia.
Qed.

Lemma year_length (y : Z) :
  365 <= days_before_year (y + 1) - days_before_year y <= 366.
Proof. rewrite days_before_year_succ. destruct (is_leap y); lia. Qed.

Lemma ymd2ord_january_first (y : Z) : ymd2ord y 1 1 = days_before_year y + 1.
Proof. unfold ymd2ord, days_before_month. simpl. lia. Qed.

(** A date lies between the first and the last day of its year. *)
Lemma toordinal_in_year (t : date) :
  valid t ->
  days_before_year (year t) + 1 <= toordinal t <= days_before_year (year t + 1).
Proof.
  intros (_ & Hm & Hd).
  rewrite days_before_year_succ.
  unfold toordinal, ymd2ord, days_before_month, days_in_month in *.
  assert (Hcases : month t = 1 \/ month t = 2 \/ month t = 3 \/ month t = 4 \/
                   month t = 5 \/ month t = 6 \/ month t = 7 \/ month t = 8 \/
                   month t = 9 \/ month t = 10 \/ month t = 11 \/
                   month t = 12) by lia.
  destruct (is_leap (year t));
    repeat (destruct Hcases as [E|Hcases]; [rewrite E in *; simpl in *; lia|]);
    rewrite Hcases in *; simpl in *; lia.
Qed.

(** The Monday that starts week 1 is a Monday, at most three days away
    from January 1st. *)
Lemma isoweek1monday_spec (y : Z) :
  (isoweek1monday y + 6) mod 7 = 0 /\
  ymd2ord y 1 1 - 3 <= isoweek1monday y <= ymd2ord y 1 1 + 3.
Proof.
  unfold isoweek1monday. cbv zeta.
  destruct (Z.ltb_spec 3 ((ymd2ord y 1 1 + 6) mod 7));
    Z.div_mod_to_equations; lia.
Qed.

(** [isocalendar] gives the ISO year and week of the date, a week number
    between 1 and 53, and the weekday counted from Monday as 1. *)
Lemma isocalendar_correct (t : date) :
  valid t ->
  exists y wk,
    isocalendar t = (y, wk, weekday t + 1) /\
    iso_year_week t y wk /\
    1 <= wk <= 53 /\
    year t - 1 <= y <= year t + 1.
Proof.
  intros Hv. pose proof (toordinal_in_year t Hv) as Hord.
  unfold isocalendar, iso_year_week, thursday_of_week, weekday. cbv zeta.
  pose proof (year_length (year t)) as Hlen.
  pose proof (year_length (year t + 1)) as Hnext.
  pose proof (year_length (year t - 1)) as Hprev.
  replace (year t - 1 + 1) with (year t) in Hprev by lia.
  pose proof (isoweek1monday_spec (year t)) as [Hmon Hnear].
  pose proof (isoweek1monday_spec (year t + 1)) as [Hmon1 Hnear1].
  pose proof (isoweek1monday_spec (year t - 1)) as [Hmon0 Hnear0].
  rewrite ymd2ord_january_first in Hnear, Hnear1, Hnear0.
  set (today := toordinal t) in *.
  set (m := isoweek1monday (year t)) in *.
  set (m1 := isoweek1monday (year t + 1)) in *.
  set (m0 := isoweek1monday (year t - 1)) in *.
  destruct (Z.ltb_spec ((today - m) / 7) 0) as [Hneg|Hpos].
  - exists (year t - 1), ((today - m0) / 7 + 1).
    rewrite !ymd2ord_january_first.
    replace (year t - 1 + 1) with (year t) by lia.
    split; [f_equal; Z.div_mod_to_equations; lia|].
    Z.div_mod_to_equations; lia.
  - destruct (Z.leb_spec 52 ((today - m) / 7)) as [H52|H52]; simpl.
    + destruct (Z.leb_spec m1 today) as [Hin|Hout].
      * exists (year t + 1), 1.
        rewrite !ymd2ord_january_first.
        split; [f_equal; Z.div_mod_to_equations; lia|].
        Z.div_mod_to_equations; lia.
      * exists (year t), ((today - m) / 7 + 1).
        rewrite !ymd2ord_january_first.
        split; [f_equal; Z.div_mod_to_equations; lia|].
        Z.div_mod_to_equations; lia.
    + exists (year t), ((today - m) / 7 + 1).
      rewrite !ymd2ord_january_first.
      split; [f_equal; Z.div_mod_to_equations; lia|].
      Z.div_mod_to_equations; lia.
Qed.

End IsoWeek.

(** ** Decimal texts *)

Section Decimal.

Lemma range_forallb (P : Z -> bool) (lo n : Z) :
  forallb P (range lo n) = true ->
  forall z, lo <= z < lo + n -> P z = true.
Proof.
  intros H z Hz. rewrite forallb_forall in H. apply H.
  unfold range. apply in_map_iff.
  exists (Z.to_nat (z - lo)). split; [lia|].
  apply in_seq. lia.
Qed.

Lemma showsb_shows (width : nat) (n : Z) (s : string) :
  showsb width n s = true -> shows width n s.
Proof.
  unfold showsb, shows. intros H.
  apply andb_true_iff in H as [Hlen Hval].
  apply Nat.eqb_eq in Hlen.
  destruct (decimal_from 0 s) as [m|]; [|discriminate].
  apply Z.eqb_eq in Hval. now subst.
Qed.

Lemma zero_padded_two_digits (n : Z) :
  0 <= n <= 99 -> shows 2 n (Calendar.zero_padded 2 n).
Proof.
  intros Hn. apply showsb_shows.
  apply (range_forallb (fun z => showsb 2 z (Calendar.zero_padded 2 z))
           0 100); [vm_compute; reflexivity|lia].
Qed.

Lemma zero_padded_four_digits (n : Z) :
  0 <= n <= 9999 -> shows 4 n (Calendar.zero_padded 4 n).
Proof.
  intros Hn. apply showsb_shows.
  apply (range_forallb (fun z => showsb 4 z (Calendar.zero_padded 4 z))
           0 10000); [vm_compute; reflexivity|lia].
Qed.

Lemma of_int_decimal (n : Z) :
  0 <= n <= 10000 -> decimal_from 0 (PyStr.of_int n) = Some n.
Proof.
  intros Hn.
  pose proof (range_forallb
                (fun z => match decimal_from 0 (PyStr.of_int z) with
                          | Some m => m =? z
                          | None => false
                          end) 0 10001) as H.
  specialize (H ltac:(vm_compute; reflexivity) n ltac:(lia)).
  simpl in H. destruct (decimal_from 0 (PyStr.of_int n)); [|discriminate].
  apply Z.eqb_eq in H. now subst.
Qed.

Lemma days_in_month_bound (y m : Z) :
  1 <= m <= 12 -> Calendar.days_in_month y m <= 31.
Proof.
  intros Hm. unfold Calendar.days_in_month.
  destruct (_ && _); [lia|].
  assert (Hcases : m = 1 \/ m = 2 \/ m = 3 \/ m = 4 \/ m = 5 \/ m = 6 \/
                   m = 7 \/ m = 8 \/ m = 9 \/ m = 10 \/ m = 11 \/ m = 12)
    by lia.
  repeat (destruct Hcases as [->|Hcases]; [simpl; lia|]).
  subst. simpl. lia.
Qed.

End Decimal.

(** [C3] For every date that a [datetime] can hold and every optional
    language, the tag is the source name, the period, the bucket of the
    period and the language key, joined by colons.  The language key is
    the language in lower case, or "all" when no language is given.  For
    "weekly" the bucket is the ISO year of the date, "-W", and the ISO
    week of the date in two digits; for "monthly" it is the year in four
    digits, a dash and the month in two digits; for "daily" it is the
    monthly bucket, a dash and the day in two digits. *)
Theorem build_source_tag_buckets (now : Calendar.date)
  (language : option string) :
  Calendar.valid now ->
  let lang_key := PyStr.lower (str_or language "all") in
  (exists y wk yyyy ww,
     iso_year_week now y wk /\
     decimal_from 0 yyyy = Some y /\ shows 2 wk ww /\
     build_source_tag now "weekly" language =
     "github-trending" ++ ":" ++ "weekly" ++ ":"
       ++ (yyyy ++ "-W" ++ ww) ++ ":" ++ lang_key) /\
  (exists yyyy mm,
     shows 4 (Calendar.year now) yyyy /\ shows 2 (Calendar.month now) mm /\
     build_source_tag now "monthly" language =
     "github-trending" ++ ":" ++ "monthly" ++ ":"
       ++ (yyyy ++ "-" ++ mm) ++ ":" ++ lang_key) /\
  (exists yyyy mm dd,
     shows 4 (Calendar.year now) yyyy /\ shows 2 (Calendar.month now) mm /\
     shows 2 (Calendar.day now) dd /\
     build_source_tag now "daily" language =
     "github-trending" ++ ":" ++ "daily" ++ ":"
       ++ (yyyy ++ "-" ++ mm ++ "-" ++ dd) ++ ":" ++ lang_key).
Proof.
  intros Hv lang_key.
  pose proof Hv as (Hy & Hm & Hd).
  unfold Calendar.MINYEAR, Calendar.MAXYEAR in Hy.
  pose proof (days_in_month_bound (Calendar.year now) _ Hm) as Hdim.
  split; [|split].
  - destruct (isocalendar_correct now Hv) as (y & wk & Hiso & Hweek & Hwk & Hyr).
    exists y, wk, (PyStr.of_int y), (Calendar.zero_padded 2 wk).
    split; [assumption|].
    split; [apply of_int_decimal; lia|].
    split; [apply zero_padded_two_digits; lia|].
    unfold build_source_tag. simpl String.eqb. cbv iota.
    rewrite Hiso. fold lang_key. simpl.
    now repeat (progress (rewrite ?str_app_assoc; cbn [append])).
  - exists (Calendar.zero_padded 4 (Calendar.year now)),
      (Calendar.zero_padded 2 (Calendar.month now)).
    split; [apply zero_padded_four_digits; lia|].
    split; [apply zero_padded_two_digits; lia|].
    unfold build_source_tag, Calendar.strftime_Y_m. simpl String.eqb.
    cbv iota. fold lang_key. simpl.
    now repeat (progress (rewrite ?str_app_assoc; cbn [append])).
  - exists (Calendar.zero_padded 4 (Calendar.year now)),
      (Calendar.zero_padded 2 (Calendar.month now)),
      (Calendar.zero_padded 2 (Calendar.day now)).
    split; [apply zero_padded_four_digits; lia|].
    split; [apply zero_padded_two_digits; lia|].
    split; [apply zero_padded_two_digits; lia|].
    unfold build_source_tag, Calendar.strftime_Y_m_d, Calendar.strftime_Y_m.
    simpl String.eqb. cbv iota. fold lang_key. simpl.
    now repeat (progress (rewrite ?str_app_assoc; cbn [append])).
Qed.

Lemma build_source_tag_buckets_witness :
  Calendar.valid Samples.today /\
  exists y wk,
    iso_year_week Samples.today y wk /\
    build_source_tag Samples.today "weekly" (Some "Python") =
    "github-trending:weekly:2026-W45:python".
Proof.
  assert (Hv : Calendar.valid Samples.today).
  { unfold Calendar.valid. cbv. repeat split; intros H; discriminate H. }
  split; [exact Hv|].
  destruct (build_source_tag_buckets Samples.today (Some "Python") Hv)
    as [(y & wk & _ & _ & Hweek & _) _].
  exists y, wk. split; [exact Hweek|reflexivity].
Defined.

Lemma unreadable_star_figures_witness :
  answer (Samples.world_ok Samples.page_unreadable)
    (trending_request None "daily") <> None /\
  exists repos r,
    fst (fetch_trending (Samples.world_ok Samples.page_unreadable) None
           "daily" initial) = Ret repos /\
    In r repos /\ Repo.stars r = None /\ Repo.stars_today r = None.
Proof.
  split; [discriminate|].
  destruct (unreadable_star_figures
              (Samples.world_ok Samples.page_unreadable) None "daily" initial
              (Samples.page_response Samples.page_unreadable)
              Samples.block_unreadable)
    as (repos & r & Hrun & Hin & _ & _ & _ & Hstars & Htoday).
  - reflexivity.
  - reflexivity.
  - left. reflexivity.
  - apply extract_item_some. eexists. reflexivity.
  - exists repos, r. rewrite Hrun. split; [reflexivity|].
    split; [exact Hin|]. split.
    + eapply Hstars; [apply find_some; reflexivity|reflexivity].
    + eapply Htoday; [apply find_some; reflexivity|reflexivity].
Defined.

(** * Further properties *)

(** ** Extraction *)

Section MoreExtraction.
Import Soup Page.

Lemma extract_loop_app (items : list node) :
  forall results,
    Trending.extract_loop items results = (results ++ records_of items)%list.
Proof.
  induction items as [|item items IH]; intros results; simpl.
  - now rewrite app_nil_r.
  - destruct (Trending.extract_item item) as [r|]; rewrite IH.
    + now rewrite <- app_assoc.
    + reflexivity.
Qed.

Lemma records_of_length (items : list node) :
  (length (records_of items) <= length items)%nat.
Proof.
  induction items as [|item items IH]; simpl; [lia|].
  rewrite length_app.
  destruct (Trending.extract_item item); simpl; lia.
Qed.

End MoreExtraction.

(** [X1] The records come out in the order of their blocks on the page:
    the result is the concatenation, block by block in document order, of
    the record of each block that has one.  So there are never more
    records than blocks, and a page without blocks gives no record. *)
Theorem extract_in_page_order (soup : Soup.node) :
  Trending.extract soup =
    records_of (Soup.find_all soup "article" (Soup.class_ "Box-row")) /\
  (length (Trending.extract soup) <=
   length (Soup.find_all soup "article" (Soup.class_ "Box-row")))%nat /\
  (Soup.find_all soup "article" (Soup.class_ "Box-row") = [] ->
   Trending.extract soup = []).
Proof.
  assert (H : Trending.extract soup =
              records_of (Soup.find_all soup "article" (Soup.class_ "Box-row"))).
  { unfold Trending.extract. now rewrite extract_loop_app. }
  split; [exact H|]. split.
  - rewrite H. apply records_of_length.
  - intros Hnil. rewrite H, Hnil. reflexivity.
Qed.

(** ** Texts *)

Section MoreTexts.

Lemma lstrip_char_decompose (c : ascii) (s : string) :
  exists k, s = repeat_char c k ++ PyStr.lstrip_char c s.
Proof.
  induction s as [|d s [k IH]]; simpl.
  - exists 0%nat. reflexivity.
  - destruct (Ascii.eqb_spec d c) as [->|Hne].
    + exists (S k). simpl. now rewrite <- IH.
    + exists 0%nat. reflexivity.
Qed.

Lemma lstrip_char_first (c : ascii) (s : string) :
  first_char (PyStr.lstrip_char c s) <> Some c.
Proof.
  induction s as [|d s IH]; simpl; [discriminate|].
  destruct (Ascii.eqb_spec d c) as [->|Hne]; [exact IH|].
  simpl. congruence.
Qed.

Lemma lstrip_first (s : string) (c : ascii) :
  first_char (PyStr.lstrip s) = Some c -> PyStr.isspace c = false.
Proof.
  induction s as [|d s IH]; simpl; [discriminate|].
  destruct (PyStr.isspace d) eqn:E; [exact IH|].
  simpl. now intros [= <-].
Qed.

Lemma rev_onto_spec (s acc : string) :
  PyStr.rev_onto s acc = PyStr.rev s ++ acc.
Proof.
  unfold PyStr.rev. revert acc.
  induction s as [|c s IH]; intros acc; simpl; [reflexivity|].
  rewrite IH, (IH (String c "")), str_app_assoc. reflexivity.
Qed.

Lemma rev_cons (c : ascii) (s : string) :
  PyStr.rev (String c s) = PyStr.rev s ++ String c "".
Proof. unfold PyStr.rev at 1. simpl. apply rev_onto_spec. Qed.

Lemma first_char_app (a b : string) :
  a <> "" -> first_char (a ++ b) = first_char a.
Proof. destruct a; [congruence|reflexivity]. Qed.

Lemma last_char_app (a b : string) :
  b <> "" -> last_char (a ++ b) = last_char b.
Proof.
  intros Hb. induction a as [|c a IH]; simpl; [reflexivity|].
  rewrite <- IH. destruct (a ++ b) eqn:E; [|reflexivity].
  destruct a; simpl in E; [congruence|discriminate].
Qed.

Lemma app_not_empty_r (a b : string) : b <> "" -> a ++ b <> "".
Proof. destruct a; simpl; [auto|discriminate]. Qed.

Lemma first_char_rev (s : string) : first_char (PyStr.rev s) = last_char s.
Proof.
  induction s as [|c s IH]; [reflexivity|].
  rewrite rev_cons. destruct s as [|d s]; [reflexivity|].
  rewrite first_char_app.
  - exact IH.
  - rewrite rev_cons. apply app_not_empty_r. discriminate.
Qed.

Lemma last_char_rev (s : string) : last_char (PyStr.rev s) = first_char s.
Proof.
  destruct s as [|c s]; [reflexivity|].
  rewrite rev_cons, last_char_app by discriminate. reflexivity.
Qed.

Lemma lstrip_keeps_last (x : string) (c : ascii) :
  PyStr.isspace c = false ->
  PyStr.lstrip (x ++ String c "") = PyStr.lstrip x ++ String c "".
Proof.
  intros Hc. induction x as [|d x IH]; simpl.
  - now rewrite Hc.
  - destruct (PyStr.isspace d); [exact IH|reflexivity].
Qed.

(** [s.strip()] has no blank at either end. *)
Lemma strip_trimmed (s : string) : trimmed (PyStr.strip s).
Proof.
  unfold PyStr.strip, PyStr.rstrip. split; intros c.
  - rewrite first_char_rev.
    destruct (PyStr.lstrip s) as [|d t] eqn:E; [discriminate|].
    assert (Hd : PyStr.isspace d = false)
      by (apply (lstrip_first s); now rewrite E).
    rewrite rev_cons, lstrip_keeps_last by exact Hd.
    rewrite last_char_app by discriminate. simpl. now intros [= <-].
  - rewrite last_char_rev. apply lstrip_first.
Qed.

Lemma stripped_strings_spec (l : list Soup.node) :
  Forall (fun t => t <> "" /\ trimmed t) (Soup.stripped_strings l).
Proof.
  induction l as [|n l IH]; simpl; [constructor|].
  destruct n as [s|s|nm attrs cs]; try exact IH.
  destruct (PyStr.truthy (PyStr.strip s)) eqn:E; [|exact IH].
  constructor; [|exact IH]. split; [|apply strip_trimmed].
  intros H. rewrite H in E. discriminate.
Qed.

Lemma join_empty_trimmed (parts : list string) :
  Forall (fun t => t <> "" /\ trimmed t) parts ->
  trimmed (PyStr.join "" parts) /\ (parts <> [] -> PyStr.join "" parts <> "").
Proof.
  induction 1 as [|p ps [Hp [Hfirst Hlast]] _ [[IHf IHl] IHne]].
  - split; [split; discriminate|congruence].
  - destruct ps as [|q ps].
    + simpl. split; [now split|auto].
    + assert (Hrest : PyStr.join "" (q :: ps) <> "")
        by (apply IHne; discriminate).
      change (PyStr.join "" (p :: q :: ps))
        with (p ++ "" ++ PyStr.join "" (q :: ps)).
      cbn [append]. split; [split|].
      * intros c. rewrite first_char_app by exact Hp. apply Hfirst.
      * intros c. rewrite last_char_app by exact Hrest. apply IHl.
      * intros _. now apply app_not_empty_r.
Qed.

(** [tag.get_text(strip=True)] has no blank at either end. *)
Lemma get_text_strip_trimmed (n : Soup.node) : trimmed (Soup.get_text_strip n).
Proof. apply join_empty_trimmed, stripped_strings_spec. Qed.

Lemma trimmed_empty : trimmed "".
Proof. split; discriminate. Qed.

End MoreTexts.

(** [X2] Every record carries the address "https://github.com" followed
    by the target of its title link without the blanks around it, and its
    name is that target without its leading slashes: the name never
    starts with a slash, and the address is "https://github.com", some
    slashes, and the name. *)
Theorem record_name_and_url (soup : Soup.node) (r : repo) :
  In r (Trending.extract soup) ->
  exists item h2 a href k,
    In item (Soup.find_all soup "article" (Soup.class_ "Box-row")) /\
    Page.first_of item "h2" Soup.no_filter h2 /\
    Page.first_of h2 "a" Soup.no_filter a /\
    Soup.get a "href" = Some href /\
    Repo.url r = "https://github.com" ++ PyStr.strip href /\
    Repo.url r = "https://github.com" ++ repeat_char "/" k ++ Repo.name r /\
    first_char (Repo.name r) <> Some "/"%char.
Proof.
  intros Hin. apply extract_in in Hin as (item & Hitem & Hr).
  unfold Trending.extract_item in Hr.
  destruct (Soup.find item "h2" Soup.no_filter) as [h2|] eqn:H1;
    [|discriminate].
  destruct (Soup.find h2 "a" Soup.no_filter) as [a|] eqn:H2; [|discriminate].
  destruct (negb _); [discriminate|].
  destruct (Soup.get a "href") as [href|] eqn:H3; [|discriminate].
  injection Hr as <-. simpl.
  destruct (lstrip_char_decompose "/" (PyStr.strip href)) as [k Hk].
  exists item, h2, a, href, k.
  apply find_some in H1, H2.
  repeat split; try assumption.
  - now rewrite <- Hk.
  - apply lstrip_char_first.
Qed.

Lemma record_name_and_url_witness :
  In Samples.r1 (Trending.extract Page.sample_page) /\
  exists k,
    Repo.url Samples.r1 =
    "https://github.com" ++ repeat_char "/" k ++ Repo.name Samples.r1.
Proof.
  assert (H : In Samples.r1 (Trending.extract Page.sample_page))
    by (left; reflexivity).
  split; [exact H|].
  destruct (record_name_and_url Page.sample_page Samples.r1 H)
    as (_ & _ & _ & _ & k & _ & _ & _ & _ & _ & Hk & _).
  exists k. exact Hk.
Defined.

(** [X3] The description and the language of every record have no blank
    at either end.  The description is the text of the first paragraph
    of class "col-9" of the block when there is one, else of its first
    paragraph, else it is empty. *)
Theorem record_texts_are_trimmed (soup : Soup.node) (r : repo) :
  In r (Trending.extract soup) ->
  trimmed (Repo.description r) /\
  trimmed (Repo.language r) /\
  exists item,
    In item (Soup.find_all soup "article" (Soup.class_ "Box-row")) /\
    Trending.extract_item item = Some r /\
    (forall t, Page.first_of item "p" (Soup.class_ "col-9") t ->
       Repo.description r = Soup.get_text_strip t) /\
    (Page.absent item "p" (Soup.class_ "col-9") ->
     forall t, Page.first_of item "p" Soup.no_filter t ->
       Repo.description r = Soup.get_text_strip t) /\
    (Page.absent item "p" Soup.no_filter -> Repo.description r = "").
Proof.
  intros Hin. apply extract_in in Hin as (item & Hitem & Hr).
  destruct (extract_item_fields _ _ Hr) as (Hd & Hl & _ & _).
  rewrite Hd, Hl. split; [|split].
  - unfold Trending.description_of.
    destruct (Soup.find item "p" (Soup.class_ "col-9"));
      [apply get_text_strip_trimmed|].
    destruct (Soup.find item "p" Soup.no_filter);
      [apply get_text_strip_trimmed|apply trimmed_empty].
  - unfold Trending.language_of.
    destruct (Soup.find item "span" _);
      [apply get_text_strip_trimmed|apply trimmed_empty].
  - exists item. split; [assumption|]. split; [assumption|].
    unfold Trending.description_of. repeat split.
    + intros t Ht. apply find_some in Ht. now rewrite Ht.
    + intros Habs t Ht. apply find_none in Habs. apply find_some in Ht.
      now rewrite Habs, Ht.
    + intros Habs.
      assert (Hc : Soup.find item "p" (Soup.class_ "col-9") = None).
      { apply find_none. intros d Hd'. specialize (Habs d Hd').
        apply andb_false_iff in Habs as [->|Hf]; [reflexivity|discriminate]. }
      apply find_none in Habs. now rewrite Hc, Habs.
Qed.

Lemma record_texts_are_trimmed_witness :
  In Samples.r1 (Trending.extract Page.sample_page) /\
  trimmed (Repo.description Samples.r1).
Proof.
  assert (H : In Samples.r1 (Trending.extract Page.sample_page))
    by (left; reflexivity).
  split; [exact H|].
  apply (record_texts_are_trimmed Page.sample_page Samples.r1 H).
Defined.

(** ** Figures with separators *)

Section MoreIntegers.










End MoreIntegers.



(** ** The page request *)

(** [X5] [fetch_trending] sends exactly one request, whatever comes of
    it: a GET of the trending address of the language and period, with
    the bot's User-Agent and a timeout of 10.  The address has no
    language part when the language is absent or empty.  A transport
    failure raises [RequestException]; a status from 400 to 599 raises
    [HTTPError] with that status; any other status, whatever it is, gives
    the records extracted from the body. *)
Theorem fetch_trending_cases (w : world) (language : option string)
  (since : string) (s : state) :
  snd (fetch_trending w language since s) =
    logged s [Sent (GET (build_trending_url language since)
                      [("User-Agent",
                        Literal "Mozilla/5.0 (compatible; GitHubTrendingBot/1.0)")]
                      10)] /\
  (truthy_opt language = false ->
   build_trending_url language since =
   "https://github.com/trending?since=" ++ since) /\
  (forall l, language = Some l -> l <> "" ->
   build_trending_url language since =
   "https://github.com/trending/" ++ l ++ "?since=" ++ since) /\
  (answer w (trending_request language since) = None ->
   fst (fetch_trending w language since s) = Raise RequestException) /\
  (forall resp,
     answer w (trending_request language since) = Some resp ->
     (400 <= status_code resp < 600 ->
      fst (fetch_trending w language since s)
        = Raise (HTTPError (status_code resp))) /\
     (status_code resp < 400 \/ 600 <= status_code resp ->
      fst (fetch_trending w language since s)
        = Ret (Trending.extract (soup_of_text resp)))).
Proof.
  rewrite fetch_trending_run. simpl fst. simpl snd.
  split; [reflexivity|]. split; [|split; [|split]].
  - unfold build_trending_url, TRENDING_BASE_URL.
    destruct language as [[|c l]|]; simpl; try discriminate; reflexivity.
  - intros l -> Hl. unfold build_trending_url, TRENDING_BASE_URL.
    destruct l; [congruence|]. simpl. rewrite ?str_app_assoc. reflexivity.
  - now intros ->.
  - intros resp ->. unfold fetch_outcome, is_error_status. split; intros H.
    + destruct (Z.leb_spec 400 (status_code resp));
        destruct (Z.ltb_spec (status_code resp) 600); simpl;
        try reflexivity; lia.
    + destruct (Z.leb_spec 400 (status_code resp));
        destruct (Z.ltb_spec (status_code resp) 600); simpl;
        try reflexivity; lia.
Qed.

(** ** Rows and card entries *)

Section MoreRows.

Lemma slice_to_length_any {A} (l : list A) (limit : Z) :
  Z.of_nat (length (slice_to l limit)) =
  slice_length (Z.of_nat (length l)) limit.
Proof.
  unfold slice_to, slice_length.
  destruct (Z.ltb_spec limit 0); rewrite length_firstn; lia.
Qed.

Lemma nth_error_firstn_some {A} (n : nat) (l : list A) (i : nat) (x : A) :
  nth_error (firstn n l) i = Some x -> nth_error l i = Some x.
Proof.
  rewrite nth_error_firstn. destruct (i <? n)%nat; [auto|discriminate].
Qed.

Lemma slice_to_prefix {A} (l : list A) (limit : Z) (i : nat) (x : A) :
  nth_error (slice_to l limit) i = Some x -> nth_error l i = Some x.
Proof.
  unfold slice_to. destruct (limit <? 0); apply nth_error_firstn_some.
Qed.

Lemma split_once_some (c : ascii) (s a b : string) :
  PyStr.split_once c s = Some (a, b) ->
  s = a ++ String c b /\ PyStr.mentions c a = false.
Proof.
  revert a b. induction s as [|d s IH]; intros a b; simpl; [discriminate|].
  destruct (Ascii.eqb_spec d c) as [->|Hne].
  - intros [= <- <-]. auto.
  - destruct (PyStr.split_once c s) as [[a' b']|]; [|discriminate].
    intros [= <- <-]. destruct (IH a' b' eq_refl) as [-> Hm].
    split; [reflexivity|]. simpl. rewrite Hm.
    destruct (Ascii.eqb_spec d c); [congruence|reflexivity].
Qed.

Lemma split_once_none (c : ascii) (s : string) :
  PyStr.split_once c s = None -> PyStr.mentions c s = false.
Proof.
  induction s as [|d s IH]; simpl; [reflexivity|].
  destruct (Ascii.eqb_spec d c) as [->|Hne]; [discriminate|].
  destruct (PyStr.split_once c s) as [[a b]|]; [discriminate|].
  intros _. now apply IH.
Qed.

End MoreRows.

(** [X6] For every limit, negative ones included, the table rows and the
    card entries are made from the same records, one row and one entry
    per record of [repos[:limit]], in order: there are [min(limit, N)]
    of each for a limit that is not negative and [max(0, N + limit)] for a
    negative one; the row and the entry at position [i] both come from
    the record at position [i] and carry the number [i + 1].  The card is
    the three top blocks, the entries, a rule and the button, and its
    "Top" line shows the limit itself, however many entries follow. *)
Theorem rows_and_entries_correspond (shorten : string -> string)
  (now_date now_tag : Calendar.date) (repos : list repo)
  (language : option string) (since : string) (limit : Z) :
  let rows :=
    build_bitable_records now_date now_tag repos language since limit in
  let c := build_feishu_card shorten repos language since limit in
  length rows = length (card_entries c) /\
  Z.of_nat (length rows) = slice_length (Z.of_nat (length repos)) limit /\
  (forall i row,
     nth_error rows i = Some row ->
     exists r,
       nth_error repos i = Some r /\
       row = bitable_row (current_date_ms now_date)
               (build_source_tag now_tag since language)
               (Z.of_nat i + 1) r /\
       nth_error (card_entries c) i
         = Some (card_entry shorten (Z.of_nat i + 1) r)) /\
  (exists top,
     body_elements c =
     ([Markdown top; Hr;
       Markdown ("**Top " ++ PyStr.of_int limit ++ " Repositories**")]
      ++ card_entries c
      ++ [Hr;
          Button (glyph_magnifier ++ " Open GitHub Trending") "primary"
            "https://github.com/trending"])%list).
Proof.
  intros rows c. subst rows c.
  rewrite build_bitable_records_map, card_entries_map.
  rewrite !length_map, enumerate_length.
  split; [reflexivity|]. split; [apply slice_to_length_any|]. split.
  - intros i row. rewrite !nth_error_map, enumerate_nth.
    destruct (nth_error (slice_to repos limit) i) as [r|] eqn:Hr;
      [|discriminate].
    replace (1 + Z.of_nat i) with (Z.of_nat i + 1) by lia.
    cbn [option_map fst snd]. intros [= <-]. exists r.
    split; [now apply slice_to_prefix in Hr|]. auto.
  - eexists. unfold build_feishu_card. simpl body_elements.
    rewrite entries_loop_map, <- !app_assoc. reflexivity.
Qed.

(** [X7] In every table row the owner is the part of the repository name
    before its first slash: it contains no slash, and the name is the
    owner alone when the name has no slash, and otherwise the owner, a
    slash and the rest.  The link text of the row is the repository name,
    and the spoken language is always "all". *)
Theorem row_owner_is_name_before_slash (now_date now_tag : Calendar.date)
  (repos : list repo) (language : option string) (since : string)
  (limit : Z) (row : bitable_record) :
  In row (build_bitable_records now_date now_tag repos language since limit) ->
  PyStr.mentions "/" (Row.Owner (fields row)) = false /\
  ((PyStr.mentions "/" (Row.Repo (fields row)) = false /\
    Row.Repo (fields row) = Row.Owner (fields row)) \/
   (exists rest,
      Row.Repo (fields row) = Row.Owner (fields row) ++ "/" ++ rest)) /\
  Row.text (Row.URL (fields row)) = Row.Repo (fields row) /\
  Row.SpokenLanguage (fields row) = "all".
Proof.
  rewrite build_bitable_records_map. intros Hin.
  apply in_map_iff in Hin as ([idx r] & <- & _). simpl.
  destruct (PyStr.split_once "/" (Repo.name r)) as [[o rest]|] eqn:E.
  - apply split_once_some in E as [Hname Hm].
    repeat split; auto. right. exists rest. exact Hname.
  - apply split_once_none in E. repeat split; auto.
Qed.

Lemma row_owner_is_name_before_slash_witness :
  In (bitable_row (current_date_ms Samples.today)
        (build_source_tag Samples.today "daily" None) 1 Samples.r1)
     (build_bitable_records Samples.today Samples.today Samples.repos
        None "daily" 2) /\
  PyStr.mentions "/"
    (Row.Owner (fields (bitable_row (current_date_ms Samples.today)
                          (build_source_tag Samples.today "daily" None) 1
                          Samples.r1))) = false.
Proof.
  assert (H : In (bitable_row (current_date_ms Samples.today)
                    (build_source_tag Samples.today "daily" None) 1
                    Samples.r1)
                 (build_bitable_records Samples.today Samples.today
                    Samples.repos None "daily" 2))
    by (left; reflexivity).
  split; [exact H|].
  exact (proj1 (row_owner_is_name_before_slash Samples.today Samples.today
                  Samples.repos None "daily" 2 _ H)).
Defined.

(** ** Dates and tags *)

Section MoreCalendar.
Import Calendar.

Lemma days_before_year_grows (y : Z) (n : nat) :
  days_before_year y + 365 * Z.of_nat n <= days_before_year (y + Z.of_nat n).
Proof.
  induction n as [|n IH].
  - replace (y + Z.of_nat 0) with y by lia. lia.
  - replace (y + Z.of_nat (S n)) with (y + Z.of_nat n + 1) by lia.
    pose proof (year_length (y + Z.of_nat n)). lia.
Qed.

Lemma days_before_year_le (y1 y2 : Z) :
  y1 <= y2 ->
  days_before_year y1 + 365 * (y2 - y1) <= days_before_year y2.
Proof.
  intros H. pose proof (days_before_year_grows y1 (Z.to_nat (y2 - y1))) as Hg.
  replace (y1 + Z.of_nat (Z.to_nat (y2 - y1))) with y2 in Hg by lia.
  lia.
Qed.

Lemma month_cases (m : Z) :
  1 <= m <= 12 ->
  m = 1 \/ m = 2 \/ m = 3 \/ m = 4 \/ m = 5 \/ m = 6 \/
  m = 7 \/ m = 8 \/ m = 9 \/ m = 10 \/ m = 11 \/ m = 12.
Proof. lia. Qed.

(** Within a year, a later month starts after the earlier month ends. *)
Lemma days_before_month_grows (y m1 m2 : Z) :
  1 <= m1 -> m1 < m2 -> m2 <= 12 ->
  days_before_month y m1 + days_in_month y m1 <= days_before_month y m2.
Proof.
  intros H1 H12 H2.
  destruct (month_cases m1 ltac:(lia)) as
    [-> | [-> | [-> | [-> | [-> | [-> | [-> | [-> | [-> | [-> | [-> | ->]]]]]]]]]]];
    destruct (month_cases m2 ltac:(lia)) as
      [-> | [-> | [-> | [-> | [-> | [-> | [-> | [-> | [-> | [-> | [-> | ->]]]]]]]]]]];
    try lia;
    unfold days_before_month, days_in_month; destruct (is_leap y);
    simpl; lia.
Qed.

(** A later date has a larger ordinal. *)
Lemma toordinal_increasing (t1 t2 : date) :
  valid t1 -> valid t2 -> date_lt t1 t2 -> toordinal t1 < toordinal t2.
Proof.
  intros Hv1 Hv2 Hlt.
  pose proof (toordinal_in_year t1 Hv1) as [_ Hhi].
  pose proof (toordinal_in_year t2 Hv2) as [Hlo _].
  destruct Hv1 as (_ & Hm1 & Hd1). destruct Hv2 as (_ & Hm2 & Hd2).
  destruct Hlt as [Hy|[Hy [Hm|[Hm Hd]]]].
  - pose proof (days_before_year_le (year t1 + 1) (year t2) ltac:(lia)). lia.
  - unfold toordinal, ymd2ord. rewrite Hy in *.
    pose proof (days_before_month_grows (year t2) (month t1) (month t2)
                  ltac:(lia) Hm ltac:(lia)).
    lia.
  - unfold toordinal, ymd2ord. rewrite Hy, Hm. lia.
Qed.

End MoreCalendar.

(** [X8] The date stamp is a whole number of days counted from
    1970-01-01, in milliseconds: it is a multiple of 86 400 000, it is
    not negative from 1970 on, and of two dates the later one has a stamp
    that is larger by one day at least. *)
Theorem current_date_ms_grows (t1 t2 : Calendar.date) :
  Calendar.valid t1 -> Calendar.valid t2 -> date_lt t1 t2 ->
  current_date_ms t1 + DAY_MS <= current_date_ms t2 /\
  current_date_ms t1 mod DAY_MS = 0 /\
  current_date_ms t1 =
    (Calendar.toordinal t1
     - Calendar.toordinal (Calendar.mk_date 1970 1 1)) * DAY_MS /\
  (1970 <= Calendar.year t1 -> 0 <= current_date_ms t1).
Proof.
  intros Hv1 Hv2 Hlt.
  pose proof (toordinal_increasing t1 t2 Hv1 Hv2 Hlt) as Hord.
  unfold current_date_ms, Calendar.midnight_ms, DAY_MS.
  split; [lia|]. split; [apply Z.mod_mul; lia|]. split; [reflexivity|].
  intros Hy.
  pose proof (toordinal_in_year t1 Hv1) as [Hlo _].
  pose proof (days_before_year_le 1970 (Calendar.year t1) Hy) as Hdb.
  change (Calendar.days_before_year 1970) with 719162 in Hdb.
  lia.
Qed.

Lemma current_date_ms_grows_witness :
  date_lt (Calendar.mk_date 2026 2 28) (Calendar.mk_date 2026 3 1) /\
  current_date_ms (Calendar.mk_date 2026 2 28) + DAY_MS
    <= current_date_ms (Calendar.mk_date 2026 3 1).
Proof.
  assert (H : date_lt (Calendar.mk_date 2026 2 28) (Calendar.mk_date 2026 3 1)).
  { right. split; [reflexivity|]. left. simpl. lia. }
  split; [exact H|].
  apply (current_date_ms_grows (Calendar.mk_date 2026 2 28)
           (Calendar.mk_date 2026 3 1)).
  - unfold Calendar.valid. cbv. repeat split; intros E; discriminate E.
  - unfold Calendar.valid. cbv. repeat split; intros E; discriminate E.
  - exact H.
Defined.

Section MoreWeeks.
Import Calendar.

Lemma iso_year_week_unique (t1 t2 : date) (y1 w1 y2 w2 : Z) :
  iso_year_week t1 y1 w1 -> iso_year_week t2 y2 w2 ->
  same_week t1 t2 -> y1 = y2 /\ w1 = w2.
Proof.
  unfold iso_year_week, thursday_of_week, same_week.
  rewrite !ymd2ord_january_first.
  intros [[Hlo1 Hhi1] Hw1] [[Hlo2 Hhi2] Hw2] Hsame.
  assert (Hy : y1 = y2).
  { destruct (Z.lt_trichotomy y1 y2) as [Hlt|[Heq|Hgt]]; [|exact Heq|].
    - pose proof (days_before_year_le (y1 + 1) y2 ltac:(lia)). lia.
    - pose proof (days_before_year_le (y2 + 1) y1 ltac:(lia)). lia. }
  split; [exact Hy|]. subst y2. rewrite Hw1, Hw2, Hsame. reflexivity.
Qed.

Lemma iso_year_week_same_week (t1 t2 : date) (y w : Z) :
  iso_year_week t1 y w -> iso_year_week t2 y w -> same_week t1 t2.
Proof.
  unfold iso_year_week, thursday_of_week, same_week, weekday.
  intros [_ Hw1] [_ Hw2]. Z.div_mod_to_equations. lia.
Qed.

End MoreWeeks.

(** [X9] The weekly bucket changes with the week and only with it: two
    dates have the same ISO year and week exactly when they lie in the
    same week, Monday to Sunday, and then they get the same weekly tag,
    also across the turn of a year. *)
Theorem same_week_same_weekly_tag (t1 t2 : Calendar.date)
  (language : option string) :
  Calendar.valid t1 -> Calendar.valid t2 ->
  (same_week t1 t2 <->
   fst (Calendar.isocalendar t1) = fst (Calendar.isocalendar t2)) /\
  (same_week t1 t2 ->
   build_source_tag t1 "weekly" language =
   build_source_tag t2 "weekly" language).
Proof.
  intros Hv1 Hv2.
  destruct (isocalendar_correct t1 Hv1) as (y1 & w1 & Hi1 & Hw1 & _).
  destruct (isocalendar_correct t2 Hv2) as (y2 & w2 & Hi2 & Hw2 & _).
  assert (Hiff : same_week t1 t2 <->
                 fst (Calendar.isocalendar t1) = fst (Calendar.isocalendar t2)).
  { rewrite Hi1, Hi2. simpl. split.
    - intros Hs.
      destruct (iso_year_week_unique _ _ _ _ _ _ Hw1 Hw2 Hs) as [-> ->].
      reflexivity.
    - intros [= -> ->]. now apply (iso_year_week_same_week t1 t2 y2 w2). }
  split; [exact Hiff|].
  intros Hs. apply Hiff in Hs. rewrite Hi1, Hi2 in Hs. simpl in Hs.
  injection Hs as -> ->.
  unfold build_source_tag. simpl String.eqb. cbv iota.
  now rewrite Hi1, Hi2.
Qed.

Lemma same_week_same_weekly_tag_witness :
  same_week (Calendar.mk_date 2020 12 31) (Calendar.mk_date 2021 1 3) /\
  build_source_tag (Calendar.mk_date 2020 12 31) "weekly" None =
  build_source_tag (Calendar.mk_date 2021 1 3) "weekly" None.
Proof.
  assert (H : same_week (Calendar.mk_date 2020 12 31)
                (Calendar.mk_date 2021 1 3)) by reflexivity.
  split; [exact H|].
  apply (same_week_same_weekly_tag (Calendar.mk_date 2020 12 31)
           (Calendar.mk_date 2021 1 3) None); [| |exact H].
  - unfold Calendar.valid. cbv. repeat split; intros E; discriminate E.
  - unfold Calendar.valid. cbv. repeat split; intros E; discriminate E.
Defined.

Section MoreTags.

Lemma lower_char_idempotent (c : ascii) :
  PyStr.lower_char (PyStr.lower_char c) = PyStr.lower_char c.
Proof. destruct c as [[] [] [] [] [] [] [] []]; vm_compute; reflexivity. Qed.

Lemma lower_idempotent (s : string) : PyStr.lower (PyStr.lower s) = PyStr.lower s.
Proof.
  induction s as [|c s IH]; simpl; [reflexivity|].
  now rewrite lower_char_idempotent, IH.
Qed.

Lemma lower_truthy (s : string) : PyStr.truthy (PyStr.lower s) = PyStr.truthy s.
Proof. destruct s; reflexivity. Qed.

Lemma build_source_tag_key (now : Calendar.date) (since : string)
  (l1 l2 : option string) :
  PyStr.lower (str_or l1 "all") = PyStr.lower (str_or l2 "all") ->
  build_source_tag now since l1 = build_source_tag now since l2.
Proof. unfold build_source_tag. now intros ->. Qed.

End MoreTags.

(** [X10] The source tag depends on the language through its lower-case
    form only: a language and its lower-case form give the same tag.  No
    language, the empty language and the language "all", in any case,
    give the same tag as well. *)
Theorem source_tag_language_key (now : Calendar.date) (since : string) :
  (forall l,
     build_source_tag now since (Some l) =
     build_source_tag now since (Some (PyStr.lower l))) /\
  build_source_tag now since None = build_source_tag now since (Some "") /\
  (forall l, PyStr.lower l = "all" ->
     build_source_tag now since (Some l) = build_source_tag now since None).
Proof.
  split; [|split].
  - intros l. apply build_source_tag_key. unfold str_or.
    rewrite lower_truthy. destruct (PyStr.truthy l); [|reflexivity].
    now rewrite lower_idempotent.
  - now apply build_source_tag_key.
  - intros l Hl. apply build_source_tag_key. unfold str_or.
    destruct l; [reflexivity|]. simpl PyStr.truthy. cbv iota. exact Hl.
Qed.

(** [X11] A period other than "weekly" and "monthly" is treated as
    "daily" by the source tag, whatever it is, while the card shows a
    period it does not know under the text given. *)
Theorem unknown_period_is_daily (now : Calendar.date) (since : string)
  (language : option string) :
  since <> "weekly" -> since <> "monthly" ->
  build_source_tag now since language =
    build_source_tag now "daily" language /\
  (since <> "daily" -> since_label since = since).
Proof.
  intros Hw Hm. apply String.eqb_neq in Hw, Hm. split.
  - unfold build_source_tag. now rewrite Hw, Hm.
  - intros Hd. apply String.eqb_neq in Hd. unfold since_label.
    now rewrite Hd, Hw, Hm.
Qed.

Lemma unknown_period_is_daily_witness :
  "yearly" <> "weekly" /\
  build_source_tag Samples.today "yearly" None =
  "github-trending:daily:2026-11-04:all".
Proof.
  split; [discriminate|].
  destruct (unknown_period_is_daily Samples.today "yearly" None) as [H _];
    [discriminate|discriminate|].
  rewrite H. reflexivity.
Defined.

(** ** The Feishu calls *)

Section MoreCalls.

Variable w : world.
Variable env : environ.

Lemma get_tenant_access_token_state (s : state) :
  snd (get_tenant_access_token w env s) =
  if negb (truthy_opt (FEISHU_APP_ID env))
     || negb (truthy_opt (FEISHU_APP_SECRET env))
  then s
  else logged s [Sent (token_request env)].
Proof.
  unfold get_tenant_access_token.
  destruct (_ || _); [reflexivity|].
  unfold send, raise_for_status, resp_json, data_get, data_item, bind, emit,
    ret, raise.
  fold (token_request env). simpl.
  destruct (answer w (token_request env)) as [resp|]; [|reflexivity].
  simpl. destruct (is_error_status _); [reflexivity|]. simpl.
  destruct (json_of_text resp) as [[| | | | |members]|]; try reflexivity.
  simpl. destruct (differs_from_zero _); [reflexivity|].
  destruct (members_get "tenant_access_token" members); reflexivity.
Qed.

End MoreCalls.

(** [X12] Without an app id or an app secret [get_tenant_access_token]
    raises at once and sends nothing.  With both it sends exactly one
    request, whatever the answer: a POST to the tenant token endpoint
    whose body is the app id and the app secret, with a timeout of 10. *)
Theorem token_request_needs_credentials (w : world) (env : environ)
  (s : state) :
  (truthy_opt (FEISHU_APP_ID env) = false \/
   truthy_opt (FEISHU_APP_SECRET env) = false ->
   get_tenant_access_token w env s =
   (Raise (RuntimeError "FEISHU_APP_ID / FEISHU_APP_SECRET not set" None),
    s)) /\
  (forall app_id app_secret,
     FEISHU_APP_ID env = Some app_id -> app_id <> "" ->
     FEISHU_APP_SECRET env = Some app_secret -> app_secret <> "" ->
     snd (get_tenant_access_token w env s) =
     logged s
       [Sent (POST
                "https://open.feishu.cn/open-apis/auth/v3/tenant_access_token/internal"
                [] (AppCredentials app_id app_secret) 10)]).
Proof.
  split.
  - intros H. unfold get_tenant_access_token.
    destruct H as [-> | ->]; simpl; [reflexivity|].
    now rewrite orb_true_r.
  - intros app_id app_secret Hid Hne1 Hsecret Hne2.
    rewrite get_tenant_access_token_state. unfold token_request.
    rewrite Hid, Hsecret. simpl.
    destruct app_id; [congruence|]. destruct app_secret; [congruence|].
    reflexivity.
Qed.

Section MoreWrites.

Variable w : world.
Variable env : environ.

Lemma bind_ret_run {A B} (m : M A) (k : A -> M B) (s s' : state) (a : A) :
  m s = (Ret a, s') -> bind m k s = k a s'.
Proof. unfold bind. now intros ->. Qed.

Lemma bind_raise_run {A B} (m : M A) (k : A -> M B) (s s' : state)
  (e : exn) :
  m s = (Raise e, s') -> bind m k s = (Raise e, s').
Proof. unfold bind. now intros ->. Qed.

Lemma accepted_some (resp : response) (members : list (string * json)) :
  is_error_status (status_code resp) = false ->
  json_of_text resp = Some (JObj members) ->
  differs_from_zero (code_of members) = false ->
  accepted (Some resp).
Proof. intros. exists resp, members. auto. Qed.

Lemma not_accepted_none : ~ accepted None.
Proof. intros (resp & members & H & _). discriminate. Qed.

Lemma accepted_inv (resp : response) :
  accepted (Some resp) ->
  is_error_status (status_code resp) = false /\
  exists members,
    json_of_text resp = Some (JObj members) /\
    differs_from_zero (code_of members) = false.
Proof. intros (r & members & [= <-] & H1 & H2 & H3). eauto. Qed.

(** The part of [write_records_to_bitable] after the token. *)
Lemma write_records_run (records : list bitable_record) (token : json)
  (s s' : state) :
  records <> [] ->
  truthy_opt (BITABLE_APP_TOKEN env) = true ->
  truthy_opt (BITABLE_TABLE_ID env) = true ->
  get_tenant_access_token w env s = (Ret token, s') ->
  (accepted (answer w (batch_request env token records)) ->
   write_records_to_bitable w env records s =
   (Ret tt,
    logged s' [Sent (batch_request env token records);
               Stdout (InfoWrote (length records))])) /\
  (~ accepted (answer w (batch_request env token records)) ->
   exists e,
     write_records_to_bitable w env records s =
     (Raise e, logged s' [Sent (batch_request env token records)])).
Proof.
  intros Hne Hat Hti Htoken.
  destruct records as [|r0 records0]; [congruence|].
  unfold write_records_to_bitable.
  rewrite Hat, Hti. cbn [andb negb].
  rewrite (bind_ret_run _ _ _ _ _ Htoken).
  set (records := r0 :: records0) in *.
  fold (batch_request env token records).
  unfold send, raise_for_status, resp_json, data_get, print, bind, emit, ret,
    raise.
  simpl.
  destruct (answer w (batch_request env token records)) as [resp|] eqn:Ha.
  2:{ split; [intros H; now apply not_accepted_none in H|].
      intros _. eexists. reflexivity. }
  simpl. split.
  - intros H. apply accepted_inv in H as (Hst & members & Hj & Hc).
    rewrite Hst. simpl. rewrite Hj. simpl. fold (code_of members).
    rewrite Hc. simpl. unfold logged. simpl. now rewrite <- app_assoc.
  - intros Hna.
    destruct (is_error_status (status_code resp)) eqn:Hst;
      [eexists; reflexivity|].
    simpl.
    destruct (json_of_text resp) as [[| | | | |members]|] eqn:Hj;
      try (eexists; reflexivity).
    simpl. fold (code_of members).
    destruct (differs_from_zero (code_of members)) eqn:Hc;
      [eexists; reflexivity|].
    elim Hna. now apply (accepted_some resp members).
Qed.

End MoreWrites.

Lemma write_records_steps (w : world) (env : environ)
  (records : list bitable_record) (s : state) :
  records <> [] ->
  (truthy_opt (BITABLE_APP_TOKEN env) = false \/
   truthy_opt (BITABLE_TABLE_ID env) = false ->
   write_records_to_bitable w env records s =
   (Raise (RuntimeError "BITABLE app_token / table_id not set" None), s)) /\
  (truthy_opt (BITABLE_APP_TOKEN env) = true ->
   truthy_opt (BITABLE_TABLE_ID env) = true ->
   (forall e s',
      get_tenant_access_token w env s = (Raise e, s') ->
      write_records_to_bitable w env records s = (Raise e, s')) /\
   (forall token s',
      get_tenant_access_token w env s = (Ret token, s') ->
      (accepted (answer w (batch_request env token records)) ->
       write_records_to_bitable w env records s =
       (Ret tt,
        logged s' [Sent (batch_request env token records);
                   Stdout (InfoWrote (length records))])) /\
      (~ accepted (answer w (batch_request env token records)) ->
       exists e,
         write_records_to_bitable w env records s =
         (Raise e, logged s' [Sent (batch_request env token records)])))).
Proof.
  intros Hne. split.
  - intros H. destruct records as [|r0 records0]; [congruence|].
    unfold write_records_to_bitable.
    destruct H as [-> | ->]; [reflexivity|].
    now rewrite andb_false_r.
  - intros Hat Hti. split.
    + intros e s' Htoken.
      destruct records as [|r0 records0]; [congruence|].
      unfold write_records_to_bitable. rewrite Hat, Hti. cbn [andb negb].
      now rewrite (bind_raise_run _ _ _ _ _ Htoken).
    + intros token s' Htoken.
      now apply write_records_run.
Qed.

(** [X13] [write_records_to_bitable] with at least one record: when the
    app token or the table id of the Bitable is unset it raises before
    anything is sent; when the token cannot be obtained the error of
    [get_tenant_access_token] is passed on and no batch request is sent;
    with a token, exactly one batch request follows, which carries all
    the records and the token as bearer, and the function returns, after
    printing the number of records, exactly when that request is
    answered with a status that is no error status and a JSON object
    whose code is 0; otherwise it raises. *)
Theorem write_records_sequence (w : world) (env : environ)
  (records : list bitable_record) (s : state) :
  records <> [] ->
  (truthy_opt (BITABLE_APP_TOKEN env) = false \/
   truthy_opt (BITABLE_TABLE_ID env) = false ->
   write_records_to_bitable w env records s =
   (Raise (RuntimeError "BITABLE app_token / table_id not set" None), s)) /\
  (truthy_opt (BITABLE_APP_TOKEN env) = true ->
   truthy_opt (BITABLE_TABLE_ID env) = true ->
   (forall e s',
      get_tenant_access_token w env s = (Raise e, s') ->
      write_records_to_bitable w env records s = (Raise e, s')) /\
   (forall token s',
      get_tenant_access_token w env s = (Ret token, s') ->
      (accepted (answer w (batch_request env token records)) ->
       write_records_to_bitable w env records s =
       (Ret tt,
        logged s' [Sent (batch_request env token records);
                   Stdout (InfoWrote (length records))])) /\
      (~ accepted (answer w (batch_request env token records)) ->
       exists e,
         write_records_to_bitable w env records s =
         (Raise e, logged s' [Sent (batch_request env token records)])))).
Proof. apply write_records_steps. Qed.

Lemma write_records_sequence_witness :
  fields_of_sample_rows <> [] /\
  fst (write_records_to_bitable (Samples.world_ok Page.sample_page)
         Samples.env_full fields_of_sample_rows initial) = Ret tt.
Proof.
  assert (Hne : fields_of_sample_rows <> []) by discriminate.
  split; [exact Hne|].
  destruct (write_records_sequence (Samples.world_ok Page.sample_page)
              Samples.env_full fields_of_sample_rows initial Hne)
    as [_ H].
  destruct (H eq_refl eq_refl) as [_ Hok].
  destruct (Hok (JStr "t-123")
              (logged initial [Sent (token_request Samples.env_full)])
              eq_refl) as [Hacc _].
  rewrite Hacc; [reflexivity|].
  eexists _, _. repeat split.
Defined.

Lemma send_card_steps (w : world) (webhook_url : string) (c : card)
  (s : state) :
  (accepted (answer w (webhook_request webhook_url c)) ->
   send_card_to_feishu w webhook_url c s =
   (Ret tt, logged s [Sent (POST webhook_url [] (InteractiveCard c) 10)])) /\
  (fst (send_card_to_feishu w webhook_url c s) = Ret tt ->
   accepted (answer w (webhook_request webhook_url c))) /\
  (answer w (webhook_request webhook_url c) = None ->
   send_card_to_feishu w webhook_url c s =
   (Raise RequestException, logged s [Sent (webhook_request webhook_url c)]))
  /\
  (forall resp,
     answer w (webhook_request webhook_url c) = Some resp ->
     is_error_status (status_code resp) = true ->
     send_card_to_feishu w webhook_url c s =
     (Raise (HTTPError (status_code resp)),
      logged s [Sent (webhook_request webhook_url c);
                Stderr (ErrorWebhookHTTP (HTTPError (status_code resp)));
                Stderr DebugResponse])) /\
  (forall resp members,
     answer w (webhook_request webhook_url c) = Some resp ->
     is_error_status (status_code resp) = false ->
     json_of_text resp = Some (JObj members) ->
     differs_from_zero (code_of members) = true ->
     send_card_to_feishu w webhook_url c s =
     (Raise (RuntimeError "Feishu error: " (Some (JObj members))),
      logged s [Sent (webhook_request webhook_url c);
                Stderr (ErrorNonZeroCode (JObj members))])).
Proof.
  change (POST webhook_url [] (InteractiveCard c) 10)
    with (webhook_request webhook_url c).
  unfold send_card_to_feishu, send, raise_for_status, resp_json, data_get,
    try_except, print_err, bind, emit, ret, raise.
  fold (webhook_request webhook_url c). simpl. unfold logged.
  destruct (answer w (webhook_request webhook_url c)) as [resp|] eqn:Ha;
    simpl;
    [destruct (is_error_status (status_code resp)) eqn:Hst; simpl;
     [|destruct (json_of_text resp) as [[| | | | |members]|] eqn:Hj; simpl;
       [| | | | |fold (code_of members);
                 destruct (differs_from_zero (code_of members)) eqn:Hc;
                 simpl|]]|];
    repeat split; intros;
    repeat match goal with
           | H : accepted (Some _) |- _ =>
               apply accepted_inv in H as (? & ? & ? & ?)
           | H : accepted None |- _ =>
               apply not_accepted_none in H; contradiction
           | H : Some _ = Some _ |- _ => injection H as H; subst
           end;
    try congruence;
    try (rewrite <- ?app_assoc; reflexivity);
    try (eapply accepted_some; eassumption);
    try (match goal with
         | H1 : ?x = Some (JObj ?a), H2 : ?x = Some (JObj ?b) |- _ =>
             assert (b = a) by congruence; subst b
         end;
         rewrite <- ?app_assoc; reflexivity).
Qed.

(** [X14] [send_card_to_feishu] sends exactly one request first, the POST
    of the card to the webhook address with a timeout of 10.  It returns
    exactly when the answer has a status that is no error status and is a
    JSON object whose code is 0, and then it prints nothing.  A transport
    failure raises at once; an error status is printed, with the body,
    and raised again as it is; a code other than 0 is printed and raised
    as a [RuntimeError] that carries the answer. *)
Theorem send_card_cases (w : world) (webhook_url : string) (c : card)
  (s : state) :
  (accepted (answer w (webhook_request webhook_url c)) ->
   send_card_to_feishu w webhook_url c s =
   (Ret tt, logged s [Sent (POST webhook_url [] (InteractiveCard c) 10)])) /\
  (fst (send_card_to_feishu w webhook_url c s) = Ret tt ->
   accepted (answer w (webhook_request webhook_url c))) /\
  (answer w (webhook_request webhook_url c) = None ->
   send_card_to_feishu w webhook_url c s =
   (Raise RequestException, logged s [Sent (webhook_request webhook_url c)]))
  /\
  (forall resp,
     answer w (webhook_request webhook_url c) = Some resp ->
     is_error_status (status_code resp) = true ->
     send_card_to_feishu w webhook_url c s =
     (Raise (HTTPError (status_code resp)),
      logged s [Sent (webhook_request webhook_url c);
                Stderr (ErrorWebhookHTTP (HTTPError (status_code resp)));
                Stderr DebugResponse])) /\
  (forall resp members,
     answer w (webhook_request webhook_url c) = Some resp ->
     is_error_status (status_code resp) = false ->
     json_of_text resp = Some (JObj members) ->
     differs_from_zero (code_of members) = true ->
     send_card_to_feishu w webhook_url c s =
     (Raise (RuntimeError "Feishu error: " (Some (JObj members))),
      logged s [Sent (webhook_request webhook_url c);
                Stderr (ErrorNonZeroCode (JObj members))])).
Proof. apply send_card_steps. Qed.

(** ** The log of a run *)

Section MoreLogs.

Variable shorten : string -> string.
Variable w : world.
Variable env : environ.

Lemma accepted_or_not (a : option response) : accepted a \/ ~ accepted a.
Proof.
  destruct a as [resp|]; [|right; apply not_accepted_none].
  destruct (is_error_status (status_code resp)) eqn:Hst.
  { right. intros H. apply accepted_inv in H as [H _]. congruence. }
  destruct (json_of_text resp) as [[| | | | |members]|] eqn:Hj;
    try (right; intros H; apply accepted_inv in H as (_ & m & Hm & _);
         congruence).
  destruct (differs_from_zero (code_of members)) eqn:Hc.
  - right. intros H. apply accepted_inv in H as (_ & m & Hm & Hm').
    assert (m = members) by congruence. subst. congruence.
  - left. now apply (accepted_some resp members).
Qed.

Lemma token_ret_state (s s' : state) (token : json) :
  get_tenant_access_token w env s = (Ret token, s') ->
  s' = logged s [Sent (token_request env)].
Proof.
  intros H.
  pose proof (get_tenant_access_token_run w env s) as Hfst.
  pose proof (get_tenant_access_token_state w env s) as Hsnd.
  rewrite H in Hfst, Hsnd. simpl in Hfst, Hsnd.
  destruct (_ || _); [discriminate|assumption].
Qed.

Lemma token_state_cases (s : state) :
  snd (get_tenant_access_token w env s) = s \/
  snd (get_tenant_access_token w env s) = logged s [Sent (token_request env)].
Proof.
  rewrite get_tenant_access_token_state. destruct (_ || _); auto.
Qed.

Lemma write_records_log (records : list bitable_record) (s : state) :
  exists evs,
    snd (write_records_to_bitable w env records s) = logged s evs /\
    table_events env records evs.
Proof.
  assert (Hnil : logged s [] = s).
  { unfold logged. rewrite app_nil_r. now destruct s. }
  destruct records as [|r0 records0].
  { exists []. split; [now rewrite Hnil|constructor]. }
  set (records := r0 :: records0).
  assert (Hne : records <> []) by discriminate.
  destruct (write_records_steps w env records s Hne) as [Hmiss Hconf].
  destruct (truthy_opt (BITABLE_APP_TOKEN env)) eqn:Hat.
  2:{ exists []. rewrite Hmiss by auto. split; [now rewrite Hnil|constructor]. }
  destruct (truthy_opt (BITABLE_TABLE_ID env)) eqn:Hti.
  2:{ exists []. rewrite Hmiss by auto. split; [now rewrite Hnil|constructor]. }
  destruct (Hconf eq_refl eq_refl) as [Hraise Hret].
  destruct (get_tenant_access_token w env s) as [[token|e|c] s'] eqn:Htoken.
  - pose proof (token_ret_state _ _ _ Htoken) as ->.
    destruct (Hret token _ eq_refl) as [Hacc Hnot].
    destruct (accepted_or_not (answer w (batch_request env token records)))
      as [Ha|Ha].
    + rewrite (Hacc Ha). eexists. split; [|apply (table_batch_written _ _ token)].
      unfold logged. simpl. now rewrite <- app_assoc.
    + destruct (Hnot Ha) as [e ->].
      eexists. split; [|apply (table_batch_refused _ _ token)].
      unfold logged. simpl. now rewrite <- app_assoc.
  - rewrite (Hraise e s' eq_refl). simpl.
    destruct (token_state_cases s) as [H|H]; rewrite Htoken in H; simpl in H;
      rewrite H.
    + exists []. split; [now rewrite Hnil|constructor].
    + eexists. split; [reflexivity|constructor].
  - now apply never_exits_token in Htoken.
Qed.

Lemma table_write_log (args : Args.t) (repos : list repo) (s : state) :
  exists evs,
    log (snd (table_write w env args repos s)) = (log s ++ evs)%list /\
    table_events env (rows_at w args repos s) evs.
Proof.
  unfold table_write, utcnow, bind. simpl.
  fold (rows_at w args repos s).
  destruct (write_records_log (rows_at w args repos s)
              {| clock_reads := S (S (clock_reads s)); log := log s |})
    as (evs & Hs & Hev).
  exists evs. split; [|exact Hev].
  destruct (write_records_to_bitable _ _ _ _) as [[[]|e|c] s'];
    simpl in *; subst s'; reflexivity.
Qed.

Lemma table_step_log (args : Args.t) (repos : list repo) (s : state) :
  exists evs,
    log (snd (table_step w env args repos s)) = (log s ++ evs)%list /\
    (bitable_ready env = false -> evs = [Stderr InfoBitableSkipped]) /\
    (bitable_ready env = true ->
     exists tevs,
       table_events env (rows_at w args repos s) tevs /\
       (evs = tevs \/ exists e, evs = (tevs ++ [Stderr (ErrorBitable e)])%list)).
Proof.
  unfold table_step. destruct (bitable_ready env); cbn [negb].
  - destruct (table_write_log args repos s) as (tevs & Hlog & Hev).
    unfold try_except.
    destruct (table_write w env args repos s) as [[[]|e|c] s'] eqn:E;
      simpl in Hlog.
    + exists tevs. simpl. split; [exact Hlog|]. split; [discriminate|].
      intros _. exists tevs. auto.
    + exists (tevs ++ [Stderr (ErrorBitable e)])%list. simpl.
      split; [rewrite Hlog; now rewrite <- app_assoc|].
      split; [discriminate|]. intros _. exists tevs. eauto.
    + now apply never_exits_table_write in E.
  - exists [Stderr InfoBitableSkipped]. simpl.
    split; [reflexivity|]. split; [reflexivity|discriminate].
Qed.

Lemma table_events_requests (rows : list bitable_record) (evs : list event) :
  table_events env rows evs ->
  Forall (fun ev => is_table_traffic ev = true) (requests_of evs) /\
  (length (requests_of evs) <= 2)%nat /\
  (requests_of evs = [] \/
   exists rest, requests_of evs = Sent (token_request env) :: rest).
Proof.
  intros H. destruct H; simpl; repeat split;
    repeat constructor; eauto; simpl; lia.
Qed.

Lemma send_card_log (webhook_url : string) (c : card) (s : state) :
  exists evs,
    snd (send_card_to_feishu w webhook_url c s) =
      logged s (Sent (webhook_request webhook_url c) :: evs) /\
    requests_of evs = [].
Proof.
  unfold send_card_to_feishu, send, raise_for_status, resp_json, data_get,
    try_except, print_err, bind, emit, ret, raise.
  fold (webhook_request webhook_url c). simpl. unfold logged.
  destruct (answer w (webhook_request webhook_url c)) as [resp|]; simpl.
  2:{ exists []. split; reflexivity. }
  destruct (is_error_status (status_code resp)); simpl.
  { eexists. split; [rewrite <- !app_assoc; reflexivity|reflexivity]. }
  destruct (json_of_text resp) as [[| | | | |members]|]; simpl;
    try (exists []; split; reflexivity).
  destruct (differs_from_zero _); simpl.
  - eexists. split; [rewrite <- !app_assoc; reflexivity|reflexivity].
  - exists []. split; reflexivity.
Qed.

Lemma card_step_log (webhook_url : string) (args : Args.t)
  (repos : list repo) (s : state) :
  exists evs,
    log (snd (card_step shorten w webhook_url args repos s)) =
      (log s ++ Sent (webhook_request webhook_url
                        (card_of shorten args repos)) :: evs)%list /\
    requests_of evs = [].
Proof.
  unfold card_step. fold (card_of shorten args repos).
  destruct (send_card_log webhook_url (card_of shorten args repos) s)
    as (evs & Hs & Hreq).
  unfold bind at 1. unfold try_except.
  destruct (send_card_to_feishu w webhook_url (card_of shorten args repos) s)
    as [[[]|e|c] s'] eqn:E; simpl in Hs; subst s'.
  - exists (evs ++ [Stdout Done])%list. unfold print, emit. simpl.
    split; [now rewrite <- app_assoc|].
    unfold requests_of in *. now rewrite filter_app, Hreq.
  - exists (evs ++ [Stderr (ErrorSend e)])%list.
    unfold print_err, sys_exit, bind, emit. simpl.
    split; [now rewrite <- app_assoc|].
    unfold requests_of in *. now rewrite filter_app, Hreq.
  - exists evs. simpl. split; [reflexivity|exact Hreq].
Qed.

End MoreLogs.

Section MoreMain.

Variable shorten : string -> string.
Variable w : world.
Variable env : environ.
Variable args : Args.t.

Lemma requests_of_app (l1 l2 : list event) :
  requests_of (l1 ++ l2) = (requests_of l1 ++ requests_of l2)%list.
Proof. apply filter_app. Qed.

(** [main] from the point where the list has been fetched. *)
Lemma main_after_fetch (webhook_url : string) (r : repo) (repos : list repo) :
  webhook_url_of env args = Some webhook_url -> webhook_url <> "" ->
  fetched w args = Ret (r :: repos) ->
  main shorten w env args initial =
  bind (table_step w env args (r :: repos))
    (fun _ => card_step shorten w webhook_url args (r :: repos))
    (logged initial
       [Sent (trending_request (Args.language args) (Args.since args))]).
Proof.
  intros Hurl Hne Hf. unfold main. rewrite Hurl.
  destruct webhook_url as [|c0 u]; [congruence|].
  unfold fetched in Hf.
  pose proof (fetch_trending_run w (Args.language args) (Args.since args)
                initial) as Hrun.
  rewrite Hrun in Hf. simpl in Hf.
  unfold bind at 1. unfold try_except. rewrite Hrun, Hf. reflexivity.
Qed.

End MoreMain.

(** [X15] The requests of a run of [main], in order.  Without a webhook
    URL nothing is sent and only the error is printed.  With one, the
    page request comes first; it is the only request when the fetch
    raises or finds no record.  When records are found, at most two
    requests to the token and table endpoints follow, none when the
    Bitable configuration is incomplete, and the posting of the card to
    the webhook URL comes last: it is sent exactly once. *)
Theorem main_request_sequence (shorten : string -> string) (w : world)
  (env : environ) (args : Args.t) :
  (webhook_missing env args ->
   log (snd (main shorten w env args initial)) = [Stderr ErrorNoWebhook]) /\
  (forall webhook_url,
     webhook_url_of env args = Some webhook_url -> webhook_url <> "" ->
     (forall e, fetched w args = Raise e ->
        requests_of (log (snd (main shorten w env args initial))) =
        [Sent (trending_request (Args.language args) (Args.since args))]) /\
     (fetched w args = Ret [] ->
      requests_of (log (snd (main shorten w env args initial))) =
      [Sent (trending_request (Args.language args) (Args.since args))]) /\
     (forall repos, fetched w args = Ret repos -> repos <> [] ->
        exists table,
          requests_of (log (snd (main shorten w env args initial))) =
          (Sent (trending_request (Args.language args) (Args.since args))
             :: table
             ++ [Sent (webhook_request webhook_url
                         (card_of shorten args repos))])%list /\
          Forall (fun ev => is_table_traffic ev = true) table /\
          (length table <= 2)%nat /\
          (bitable_ready env = false -> table = []))).
Proof.
  split.
  - unfold webhook_missing, main.
    destruct (webhook_url_of env args) as [[|c0 u]|]; try discriminate;
      reflexivity.
  - intros url Hurl Hne.
    pose proof (fetch_trending_run w (Args.language args) (Args.since args)
                  initial) as Hrun.
    split; [|split].
    + intros e Hf. unfold fetched in Hf. unfold main. rewrite Hurl.
      destruct url as [|c0 u]; [congruence|].
      rewrite Hrun in Hf. simpl in Hf.
      unfold bind at 1. unfold try_except. rewrite Hrun, Hf. reflexivity.
    + intros Hf. unfold fetched in Hf. unfold main. rewrite Hurl.
      destruct url as [|c0 u]; [congruence|].
      rewrite Hrun in Hf. simpl in Hf.
      unfold bind at 1. unfold try_except. rewrite Hrun, Hf. reflexivity.
    + intros repos Hf Hrepos.
      destruct repos as [|r repos]; [congruence|].
      rewrite (main_after_fetch shorten w env args url r repos Hurl Hne Hf).
      set (s1 := logged initial _).
      destruct (table_step_returns w env args (r :: repos) s1) as [s2 Hstep].
      destruct (table_step_log w env args (r :: repos) s1)
        as (evs & Hlog & Hskip & Hready).
      rewrite Hstep in Hlog. simpl in Hlog.
      rewrite (bind_ret_run _ _ _ _ _ Hstep).
      destruct (card_step_log shorten w url args (r :: repos) s2)
        as (cevs & Hclog & Hcreq).
      rewrite Hclog, Hlog.
      exists (requests_of evs).
      rewrite !requests_of_app. simpl. unfold requests_of at 3.
      cbn [filter is_request]. fold (requests_of cevs). rewrite Hcreq.
      split; [reflexivity|].
      destruct (bitable_ready env) eqn:Hb.
      * destruct (Hready eq_refl) as (tevs & Htev & Hcases).
        destruct (table_events_requests env _ _ Htev) as (Hall & Hlen & _).
        assert (Hsame : requests_of evs = requests_of tevs).
        { destruct Hcases as [->|[e ->]]; [reflexivity|].
          rewrite requests_of_app. simpl. now rewrite app_nil_r. }
        rewrite Hsame. repeat split; auto. discriminate.
      * rewrite (Hskip eq_refl). simpl. repeat split; auto.
Qed.

(** [X16] A run in which everything succeeds: with a webhook URL, a page
    received with records on it, a complete Bitable configuration, a
    limit that keeps at least one record, and the token, table and
    webhook requests accepted, [main] returns normally after reading the
    clock twice, and its log is the page request, the token request, the
    batch request for the rows (dated by the first reading of the clock
    and tagged by the second), the printed number of rows, the posting of
    the card, and the final message, in this order. *)
Theorem main_full_run (shorten : string -> string) (w : world)
  (env : environ) (args : Args.t) (webhook_url : string) (resp : response)
  (token : json) :
  webhook_url_of env args = Some webhook_url -> webhook_url <> "" ->
  answer w (trending_request (Args.language args) (Args.since args))
    = Some resp ->
  is_error_status (status_code resp) = false ->
  Trending.extract (soup_of_text resp) <> [] ->
  bitable_ready env = true ->
  rows_at w args (Trending.extract (soup_of_text resp)) initial <> [] ->
  token_outcome (answer w (token_request env)) = Ret token ->
  accepted (answer w (batch_request env token
                        (rows_at w args (Trending.extract (soup_of_text resp))
                           initial))) ->
  accepted (answer w (webhook_request webhook_url
                        (card_of shorten args
                           (Trending.extract (soup_of_text resp))))) ->
  main shorten w env args initial =
  (Ret tt,
   {| clock_reads := 2;
      log :=
        [Sent (trending_request (Args.language args) (Args.since args));
         Sent (token_request env);
         Sent (batch_request env token
                 (rows_at w args (Trending.extract (soup_of_text resp))
                    initial));
         Stdout (InfoWrote
                   (length (rows_at w args
                              (Trending.extract (soup_of_text resp))
                              initial)));
         Sent (webhook_request webhook_url
                 (card_of shorten args
                    (Trending.extract (soup_of_text resp))));
         Stdout Done] |}).
Proof.
  intros Hurl Hne Hresp Hok Hrepos Hready Hrows Htoken Hbatch Hhook.
  set (repos := Trending.extract (soup_of_text resp)) in *.
  assert (Hf : fetched w args = Ret repos).
  { unfold fetched. rewrite fetch_trending_run. simpl.
    unfold fetch_outcome. now rewrite Hresp, Hok. }
  destruct repos as [|r repos'] eqn:Erepos; [congruence|].
  rewrite (main_after_fetch shorten w env args webhook_url r repos'
             Hurl Hne Hf).
  set (rows := rows_at w args (r :: repos') initial) in *.
  set (s1 := logged initial _).
  unfold bitable_ready in Hready.
  apply andb_true_iff in Hready as [Hready Hti].
  apply andb_true_iff in Hready as [Hready Hat].
  apply andb_true_iff in Hready as [Hid Hsecret].
  set (s1' := {| clock_reads := 2; log := log s1 |}).
  assert (Htok : get_tenant_access_token w env s1' =
                 (Ret token, logged s1' [Sent (token_request env)])).
  { pose proof (get_tenant_access_token_run w env s1') as H1.
    pose proof (get_tenant_access_token_state w env s1') as H2.
    rewrite Hid, Hsecret in H1, H2. simpl in H1, H2.
    rewrite Htoken in H1.
    destruct (get_tenant_access_token w env s1') as [o s']. simpl in *.
    now subst. }
  destruct (write_records_run w env rows token s1' _ Hrows Hat Hti Htok)
    as [Hwrite _].
  specialize (Hwrite Hbatch).
  assert (Hstep : table_step w env args (r :: repos') s1 =
                  (Ret tt,
                   logged (logged s1' [Sent (token_request env)])
                     [Sent (batch_request env token rows);
                      Stdout (InfoWrote (length rows))])).
  { unfold table_step, bitable_ready.
    rewrite Hid, Hsecret, Hat, Hti. cbn [andb negb].
    unfold try_except, table_write, utcnow, bind. simpl.
    change (build_bitable_records (clock w 0) (clock w 1) (r :: repos')
              (Args.language args) (Args.since args) (Args.limit args))
      with rows.
    change {| clock_reads := 2;
              log := [Sent (trending_request (Args.language args)
                              (Args.since args))] |} with s1'.
    now rewrite Hwrite. }
  rewrite (bind_ret_run _ _ _ _ _ Hstep).
  unfold card_step. fold (card_of shorten args (r :: repos')).
  destruct (send_card_steps w webhook_url (card_of shorten args (r :: repos'))
              (logged (logged s1' [Sent (token_request env)])
                 [Sent (batch_request env token rows);
                  Stdout (InfoWrote (length rows))]))
    as [Hsend _].
  specialize (Hsend Hhook).
  unfold bind at 1. unfold try_except. rewrite Hsend.
  reflexivity.
Qed.

Lemma main_full_run_witness :
  webhook_url_of Samples.env_full Samples.args_default
    = Some "https://hook.example/abc" /\
  fst (main Samples.keep (Samples.world_ok Page.sample_page)
         Samples.env_full Samples.args_default initial) = Ret tt.
Proof.
  split; [reflexivity|].
  rewrite (main_full_run Samples.keep (Samples.world_ok Page.sample_page)
             Samples.env_full Samples.args_default
             "https://hook.example/abc"
             (Samples.page_response Page.sample_page) (JStr "t-123")).
  - reflexivity.
  - reflexivity.
  - discriminate.
  - reflexivity.
  - reflexivity.
  - discriminate.
  - reflexivity.
  - discriminate.
  - reflexivity.
  - eexists _, _. repeat split.
  - eexists _, _. repeat split.
Defined.

(** ** Blocks within blocks *)

Section MoreBlocks.
Import Soup.

(** What lies below a descendant lies below the node itself. *)
Lemma descendants_trans :
  forall n c d,
    In c (descendants n) -> In d (descendants c) -> In d (descendants n).
Proof.
  fix IH 1. intros [s|s|nm attrs cs] c d; simpl; try contradiction.
  induction cs as [|x cs IHcs]; simpl; [contradiction|].
  intros [<-|Hc] Hd.
  - right. apply in_or_app. now left.
  - apply in_app_or in Hc as [Hc|Hc].
    + right. apply in_or_app. left. now apply (IH x c d).
    + right. apply in_or_app. right. now apply IHcs.
Qed.

Lemma find_all_in (n : node) (name : string) (flt : attr_filter) (d : node) :
  In d (find_all n name flt) <->
  In d (descendants n) /\ has_name name d && flt d = true.
Proof. unfold find_all. apply filter_In. Qed.

End MoreBlocks.

(** [X17] The search for blocks goes into blocks: a block that lies
    inside another block of the page is a block of the page as well, so
    when it has a title it yields a record of its own. *)
Theorem nested_blocks_are_blocks (soup outer inner : Soup.node) :
  In outer (Soup.find_all soup "article" (Soup.class_ "Box-row")) ->
  In inner (Soup.find_all outer "article" (Soup.class_ "Box-row")) ->
  In inner (Soup.find_all soup "article" (Soup.class_ "Box-row")) /\
  (forall r, Trending.extract_item inner = Some r ->
     In r (Trending.extract soup)).
Proof.
  intros Houter Hinner.
  assert (H : In inner (Soup.find_all soup "article" (Soup.class_ "Box-row"))).
  { apply find_all_in in Houter as [Ho _].
    apply find_all_in in Hinner as [Hi Hm].
    apply find_all_in. split; [|exact Hm].
    now apply (descendants_trans soup outer inner). }
  split; [exact H|].
  intros r Hr. apply extract_in. eauto.
Qed.

Lemma nested_blocks_are_blocks_witness :
  In nesting_block
     (Soup.find_all nesting_page "article" (Soup.class_ "Box-row")) /\
  In Page.block_bare
     (Soup.find_all nesting_block "article" (Soup.class_ "Box-row")) /\
  In Page.block_bare
     (Soup.find_all nesting_page "article" (Soup.class_ "Box-row")).
Proof.
  assert (H1 : In nesting_block
                 (Soup.find_all nesting_page "article"
                    (Soup.class_ "Box-row"))) by (left; reflexivity).
  assert (H2 : In Page.block_bare
                 (Soup.find_all nesting_block "article"
                    (Soup.class_ "Box-row"))) by (left; reflexivity).
  split; [exact H1|]. split; [exact H2|].
  exact (proj1 (nested_blocks_are_blocks nesting_page nesting_block
                  Page.block_bare H1 H2)).
Defined.
